(** * Metric report: the TVL trailing-average scripts

    A shallow embedding of the two TypeScript scripts of the repository:
    [src/node/index.ts], and the revision of the same script that is kept
    next to the Venezuela market spec (called the Venezuela revision
    below).  The window resolver and the rounder that the engine
    specification describes come after them.

    JavaScript numbers are IEEE-754 binary64 values; they are modelled by
    Rocq's primitive floats, whose operations are exactly the binary64
    ones.  Objects that are enumerated with [for ... in] are association
    lists in enumeration order; the [results] object, which is only written
    and read by key, is a finite map.

    The body of a response is whatever JSON the server sent: the scripts
    cast it to the response type without a check.  The functions are
    therefore given twice, at the type the source declares for [data]
    and, under [Unchecked], as they run on any JSON value, where a read
    can throw a TypeError; [main] runs the latter, and the two agree on
    every body of the declared shape. *)

From Stdlib Require Import ZArith QArith Qround List String Ascii Bool Lia Lqa.
From Stdlib Require Import Floats.PrimFloat Floats.FloatOps Floats.SpecFloat.
From Stdlib Require Floats.FloatAxioms.
From Stdlib Require Import DecimalString.
From Stdlib Require Import Numbers.Cyclic.Int63.Uint63.
From stdpp Require Import gmap strings.
Import ListNotations.

#[local] Set Warnings "-inexact-float,-register-all".

Local Open Scope string_scope.
Local Open Scope Z_scope.

(** ** The JavaScript runtime, as far as the scripts use it *)

Module Js.

(** A JavaScript [number]. *)
Definition number : Set := float.
Bind Scope float_scope with number.

(** Integers as numbers.  Every integer the scripts convert (loop
    counters, time values) is far below [2^53], where the conversion is
    exact. *)
Definition of_Z (z : Z) : number :=
  match z with
  | Z0 => 0%float
  | Zpos _ => PrimFloat.of_uint63 (Uint63.of_Z z)
  | Zneg p => (- PrimFloat.of_uint63 (Uint63.of_Z (Zpos p)))%float
  end.

(** The exact rational value of a number; [None] for NaN and the
    infinities. *)
Definition Qpow2 (e : Z) : Q :=
  match e with
  | Z0 => 1%Q
  | Zpos p => inject_Z (Z.pow_pos 2 p)
  | Zneg p => (1 # Pos.pow 2 p)%Q
  end.

Definition exactQ (x : number) : option Q :=
  match Prim2SF x with
  | S754_zero _ => Some 0%Q
  | S754_finite s m e =>
      Some (inject_Z (if s then Zneg m else Zpos m) * Qpow2 e)%Q
  | S754_infinity _ | S754_nan => None
  end.

(** [x] is a finite number whose exact value is [q]. *)
Definition represents (x : number) (q : Q) : Prop :=
  exists q0, exactQ x = Some q0 /\ (q0 == q)%Q.

Definition representsb (x : number) (q : Q) : bool :=
  match exactQ x with
  | Some q0 => Qeq_bool q0 q
  | None => false
  end.

(** [String.prototype.split] with a one-character separator. *)
Fixpoint split (sep : ascii) (s : string) : list string :=
  match s with
  | EmptyString => [EmptyString]
  | String c rest =>
      if Ascii.eqb c sep then EmptyString :: split sep rest
      else match split sep rest with
           | [] => [String c EmptyString]
           | seg :: segs => String c seg :: segs
           end
  end.

(** [Array.prototype.find]: the first element that satisfies the
    predicate, [None] standing for [undefined]. *)
Definition Array_find {A : Type} (p : A -> bool) (a : list A) : option A :=
  List.find p a.

(** An object whose own properties are enumerated: the properties in
    [for ... in] order.  Objects have one property per key. *)
Definition object (V : Type) : Type := list (string * V).

Definition keys {V : Type} (o : object V) : list string := List.map fst o.

Fixpoint get {V : Type} (o : object V) (k : string) : option V :=
  match o with
  | [] => None
  | (k', v) :: o' => if String.eqb k' k then Some v else get o' k
  end.

Definition well_formed {V : Type} (o : object V) : Prop :=
  List.NoDup (keys o).

(** A [Date] holds a time value: an integral number of milliseconds
    since the epoch, or NaN ([None], an invalid date). *)
Definition Date : Type := option Z.

Definition msPerDay : Z := 86400000.

Definition TimeClip (t : Z) : Date :=
  if (Z.abs t <=? 8640000000000000)%Z then Some t else None.

Definition getTime (d : Date) : number :=
  match d with
  | Some t => of_Z t
  | None => PrimFloat.nan
  end.

(** [date.setUTCDate(date.getUTCDate() - i)].  On a valid date the day
    of the month is replaced by a day [i] earlier and the time within
    the day is kept, so the time value moves back by [i] whole days
    (UTC has no daylight saving) and is clipped; an invalid date stays
    invalid. *)
Definition setUTCDate_back (d : Date) (i : Z) : Date :=
  match d with
  | Some t => TimeClip (t - i * msPerDay)
  | None => None
  end.

(** How a call that can throw completes. *)
Inductive completion (A : Type) : Type :=
| Normal (a : A)
| Throw (message : string).
Arguments Normal {A} a.
Arguments Throw {A} message.

(** What the host gives.  [Date_parse] is [new Date(string)]: its
    result on strings outside the ISO format, and on impossible calendar
    dates, differs between engines, so the parser is a parameter of the
    scripts.  [http_get] is [fetch(url)] followed
    by [response.json()]: the request can fail, and otherwise yields the
    [ok] flag, the status text and the parsed body (or the failure of
    parsing it). *)
Record http_response (Body : Type) : Type :=
  { ok : bool; statusText : string; json : completion Body }.
Arguments ok {Body} _.
Arguments statusText {Body} _.
Arguments json {Body} _.

Class Runtime (Body : Type) :=
  { Date_parse : string -> Date;
    http_get : string -> completion (http_response Body) }.

(** [Math.round]: the integral number closest to [x], the one closer
    to plus infinity at a tie; NaN and the infinities are returned
    unchanged.  [round_Q] is that rule on the exact value. *)
Definition round_Q (q : Q) : Z :=
  let lo := Qfloor q in
  let hi := Qceiling q in
  if Qlt_le_dec (q - inject_Z lo) (inject_Z hi - q) then lo else hi.

Definition Math_round (x : number) : number :=
  match exactQ x with
  | Some q =>
      if Qeq_bool (inject_Z (Qfloor q)) q then x
      else
        let n := round_Q q in
        if (n =? 0) && PrimFloat.ltb x 0 then (-0)%float else of_Z n
  | None => x
  end.

(** *** Values that are not checked against a type

    [response.json()] yields whatever JSON the server sent, and the cast
    to the response type checks nothing.  The rest of this module is
    what the scripts' operations do on arbitrary JSON values. *)

(** A JSON value after [JSON.parse], and [undefined]. The properties of
    an object are in [for ... in] order. *)
Inductive value : Type :=
| Undefined
| Null
| Bool (b : bool)
| Num (x : number)
| Str (s : string)
| Arr (elements : list value)
| Obj (properties : list (string * value)).

(** The two conversions between numbers and strings, [Number::toString]
    and [StringToNumber], are the engine's; the language fixes them, the
    same for every run. *)
Class Engine :=
  { Number_toString : number -> string;
    String_toNumber : string -> number }.

Definition TypeError {A : Type} : completion A := Throw "TypeError".

Definition bind {A B : Type} (c : completion A) (k : A -> completion B)
    : completion B :=
  match c with
  | Normal a => k a
  | Throw error => Throw error
  end.

(** A loop whose body can throw: the first throw ends it. *)
Fixpoint for_each {S A : Type} (l : list A) (body : S -> A -> completion S)
    (s : S) : completion S :=
  match l with
  | [] => Normal s
  | x :: rest => bind (body s x) (for_each rest body)
  end.

(** The key of an array index. *)
Definition index_key (i : nat) : string :=
  NilZero.string_of_uint (Nat.to_uint i).

(** The own enumerable properties of a value, as [for ... in] visits
    them: the properties of an object, the indexed elements of an array,
    the indexed characters of a string; nothing for the other values.
    (Strings are byte strings here, so on text outside ASCII the number
    of characters differs from JavaScript's.) *)
Definition enumerate (v : value) : list (string * value) :=
  match v with
  | Obj properties => properties
  | Arr elements =>
      combine (List.map index_key (seq 0 (length elements))) elements
  | Str s =>
      let chars := list_ascii_of_string s in
      combine (List.map index_key (seq 0 (length chars)))
              (List.map (fun c => Str (String c EmptyString)) chars)
  | Undefined | Null | Bool _ | Num _ => []
  end.

(** [v.name] and [v[name]], for the names the scripts read: the own
    enumerable property, [undefined] when there is none, a TypeError when
    [v] is [null] or [undefined].  (The scripts read no name that a
    prototype defines, such as [length] or [constructor].) *)
Definition Get (v : value) (name : string) : completion value :=
  match v with
  | Undefined | Null => TypeError
  | _ =>
      Normal match get (enumerate v) name with
             | Some w => w
             | None => Undefined
             end
  end.

Definition ToBoolean (v : value) : bool :=
  match v with
  | Undefined | Null => false
  | Bool b => b
  | Num x => negb (x =? 0)%float && (x =? x)%float
  | Str s => negb (String.eqb s "")
  | Arr _ | Obj _ => true
  end.

(** [v === x] for a number [x]. *)
Definition strictly_equals (v : value) (x : number) : bool :=
  match v with
  | Num y => (y =? x)%float
  | _ => false
  end.

(** [a.find(p)]: a TypeError unless [a] is an array (no other JSON value
    has a callable [find]); on an array the first element on which the
    callback is true, the callback being run on the elements in order. *)
Fixpoint Array_find_in (p : value -> completion bool) (a : list value)
    : completion value :=
  match a with
  | [] => Normal Undefined
  | d :: rest =>
      bind (p d) (fun found => if found then Normal d else Array_find_in p rest)
  end.

Definition call_find (a : value) (p : value -> completion bool)
    : completion value :=
  match a with
  | Arr elements => Array_find_in p elements
  | _ => TypeError
  end.

Section Coercions.
Context `{Engine}.

(** [ToString].  An array is joined with commas, [null] elements giving
    the empty string; an object from [JSON.parse] gives
    "[object Object]", unless an own property hides [toString], in which
    case the conversion is a TypeError. *)
Fixpoint ToString (v : value) : completion string :=
  match v with
  | Undefined => Normal "undefined"
  | Null => Normal "null"
  | Bool b => Normal (if b then "true" else "false")
  | Num x => Normal (Number_toString x)
  | Str s => Normal s
  | Arr elements =>
      (fix join (l : list value) : completion string :=
         match l with
         | [] => Normal ""
         | e :: rest =>
             bind (match e with
                   | Undefined | Null => Normal ""
                   | _ => ToString e
                   end)
                  (fun first =>
                     match rest with
                     | [] => Normal first
                     | _ :: _ =>
                         bind (join rest)
                              (fun others => Normal (first ++ "," ++ others))
                     end)
         end) elements
  | Obj properties =>
      match get properties "toString" with
      | Some _ => TypeError
      | None => Normal "[object Object]"
      end
  end.

(** [ToPrimitive]: arrays and objects become their strings. *)
Definition ToPrimitive (v : value) : completion value :=
  match v with
  | Arr _ | Obj _ => bind (ToString v) (fun s => Normal (Str s))
  | _ => Normal v
  end.

Definition ToNumber (v : value) : completion number :=
  bind (ToPrimitive v)
       (fun p =>
          Normal match p with
                 | Undefined => PrimFloat.nan
                 | Null => 0%float
                 | Bool b => if b then 1%float else 0%float
                 | Num x => x
                 | Str s => String_toNumber s
                 | Arr _ | Obj _ => PrimFloat.nan  (* not primitives *)
                 end).

(** [a + b]: concatenation when either primitive is a string, the sum
    of the two numbers otherwise. *)
Definition add (a b : value) : completion value :=
  bind (ToPrimitive a) (fun lprim =>
  bind (ToPrimitive b) (fun rprim =>
    match lprim, rprim with
    | Str _, _ | _, Str _ =>
        bind (ToString lprim) (fun lstr =>
        bind (ToString rprim) (fun rstr => Normal (Str (lstr ++ rstr))))
    | _, _ =>
        bind (ToNumber lprim) (fun lnum =>
        bind (ToNumber rprim) (fun rnum => Normal (Num (lnum + rnum)%float)))
    end)).

(** [a / x] for a number [x]. *)
Definition divide (a : value) (x : number) : completion number :=
  bind (ToNumber a) (fun lnum => Normal (lnum / x)%float).

End Coercions.

End Js.

(** ** Declarations shared by the two scripts *)

Module Defs.
Import Js.

Record TvlDataItem : Set :=
  { date : number;  (* Unix timestamp *)
    totalLiquidityUSD : number }.

Record ChainTvl : Set := { tvl : list TvlDataItem }.

Definition ChainTvls : Type := object ChainTvl.

Record DefiLlamaApiResponse : Type := { chainTvls : ChainTvls }.

Definition MAJOR_SUPERCHAIN_L2S : gset string :=
  list_to_set
    [ "BOB"; "Base"; "Ink"; "Lisk"; "Mode"; "Optimism"; "OP Mainnet";
      "Polynomial"; "Soneium"; "Swellchain"; "Unichain"; "World Chain" ].

(** [Set.prototype.has] *)
Definition has (s : gset string) (x : string) : bool := bool_decide (x ∈ s).

Definition METRIC_START_DATE : string := "2025-03-20".
Definition METRIC_END_DATE : string := "2025-06-12".
Definition TRAILING_DAYS : Z := 7.

(** The counter values [0, 1, ..., n-1] of
    [for (let i = 0; i < n; i++)]. *)
Definition counter (n : Z) : list Z := List.map Z.of_nat (seq 0 (Z.to_nat n)).

(** The JSON of a response of the declared type. *)
Definition to_json (data : DefiLlamaApiResponse) : value :=
  Obj [ ("chainTvls",
         Obj (List.map
                (fun kv =>
                   (fst kv,
                    Obj [ ("tvl",
                           Arr (List.map
                                  (fun d =>
                                     Obj [ ("date", Num (date d));
                                           ("totalLiquidityUSD",
                                            Num (totalLiquidityUSD d)) ])
                                  (tvl (snd kv)))) ]))
                (chainTvls data))) ].

(** Reading a JSON value at the declared type: [decode v = Some data]
    when [v] has the shape that [DefiLlamaApiResponse] declares (other
    properties may be present as well), [data] being what the declared
    properties hold. *)
Fixpoint traverse {A B : Type} (f : A -> option B) (l : list A)
    : option (list B) :=
  match l with
  | [] => Some []
  | x :: rest =>
      match f x, traverse f rest with
      | Some y, Some ys => Some (y :: ys)
      | _, _ => None
      end
  end.

Definition decode_item (v : value) : option TvlDataItem :=
  match v with
  | Obj properties =>
      match get properties "date", get properties "totalLiquidityUSD" with
      | Some (Num d), Some (Num usd) =>
          Some {| date := d; totalLiquidityUSD := usd |}
      | _, _ => None
      end
  | _ => None
  end.

Definition decode_chain (v : value) : option ChainTvl :=
  match v with
  | Obj properties =>
      match get properties "tvl" with
      | Some (Arr elements) =>
          match traverse decode_item elements with
          | Some items => Some {| tvl := items |}
          | None => None
          end
      | _ => None
      end
  | _ => None
  end.

Definition decode (v : value) : option DefiLlamaApiResponse :=
  match v with
  | Obj properties =>
      match get properties "chainTvls" with
      | Some (Obj chains) =>
          match traverse
                  (fun kv =>
                     match decode_chain (snd kv) with
                     | Some chain => Some (fst kv, chain)
                     | None => None
                     end)
                  chains with
          | Some chains => Some {| chainTvls := chains |}
          | None => None
          end
      | _ => None
      end
  | _ => None
  end.

(** [fetchProtocolData]: a failed request and a failed parse are
    rethrown, a response that is not [ok] throws.  The body is returned
    as parsed: the cast to [DefiLlamaApiResponse] checks nothing. *)
Definition fetchProtocolData `{Runtime value}
    (protocolSlug : string) : completion value :=
  let apiUrl := "https://api.llama.fi/protocol/" ++ protocolSlug in
  match http_get apiUrl with
  | Normal response =>
      if negb (ok response)
      then Throw ("Failed to fetch data for " ++ protocolSlug ++ ": "
                  ++ statusText response)
      else json response
  | Throw error => Throw error
  end.

End Defs.

(** ** [src/node/index.ts] *)

Module Node.
Import Js Defs.

Definition PROJECTS : object string :=
  [ ("Rocket Pool", "rocket-pool"); ("SuperForm", "superform");
    ("Avantis", "avantis"); ("Polynomial", "polynomial-protocol");
    ("Extra Finance", "extra-finance"); ("Gyroscope", "gyroscope-protocol");
    ("Reservoir", "reservoir-protocol"); ("QiDAO", "qidao");
    ("Silo", "silo-finance"); ("Exactly", "exactly");
    ("Ionic Protocol", "ionic-protocol");
    ("Ironclad Finance", "ironclad-finance");
    ("Lets Get HAI", "lets-get-hai");
    ("Maverick Protocol", "maverick-protocol"); ("Metronome", "metronome");
    ("Overnight Finance", "overnight-finance");
    ("Peapods Finance", "peapods-finance"); ("Sushi", "sushi");
    ("SynFutures", "synfutures"); ("Thales", "thales");
    ("TLX Finance", "tlx-finance") ].

(** One turn of the loop over the chains in [getTvlOnDate]. *)
Definition getTvlOnDate_step (data : DefiLlamaApiResponse)
    (targetTimestamp : number) (totalTvl : number) (chain : string)
    : number :=
  let chainName := nth 0 (split "-" chain) "" in
  if has MAJOR_SUPERCHAIN_L2S chainName then
    match get (chainTvls data) chain with
    | Some entry =>
        let tvlData := tvl entry in
        match Array_find
                (fun d => (Defs.date d =? targetTimestamp)%float) tvlData with
        | Some dayTvl => (totalTvl + totalLiquidityUSD dayTvl)%float
        | None => totalTvl
        end
    | None => totalTvl  (* not reached: [chain] is a key of the object *)
    end
  else totalTvl.

Definition getTvlOnDate (data : DefiLlamaApiResponse) (date : Date)
    : number :=
  let targetTimestamp := (getTime date / 1000)%float in
  fold_left (getTvlOnDate_step data targetTimestamp)
            (keys (chainTvls data)) 0%float.

Section AtDeclaredType.
Context `{Runtime value}.

Definition calculateTrailingAverageTvl (data : DefiLlamaApiResponse)
    (endDateStr : string) : number :=
  let endDate := Date_parse (endDateStr ++ "T00:00:00Z") in
  let totalTvlForPeriod :=
    fold_left
      (fun totalTvlForPeriod i =>
         let date := setUTCDate_back endDate i in
         (totalTvlForPeriod + getTvlOnDate data date)%float)
      (counter TRAILING_DAYS) 0%float in
  (totalTvlForPeriod / of_Z TRAILING_DAYS)%float.

End AtDeclaredType.

(** The two functions above are the source's at the type it declares
    for [data].  [main] hands them the parsed body unchecked; these are
    the same two functions as they run on any JSON value.  [totalTvl] is
    then a number or, once a string has been added, a string. *)
Module Unchecked.

Section WithEngine.
Context `{Engine}.

Definition getTvlOnDate_step (chainTvls : value) (targetTimestamp : number)
    (totalTvl : value) (chain : string) : completion value :=
  let chainName := nth 0 (split "-" chain) "" in
  if has MAJOR_SUPERCHAIN_L2S chainName then
    bind (Get chainTvls chain) (fun entry =>
    bind (Get entry "tvl") (fun tvlData =>
    bind (call_find tvlData
            (fun d =>
               bind (Get d "date")
                    (fun date =>
                       Normal (strictly_equals date targetTimestamp))))
         (fun dayTvl =>
            if ToBoolean dayTvl then
              bind (Get dayTvl "totalLiquidityUSD") (add totalTvl)
            else Normal totalTvl)))
  else Normal totalTvl.

Definition getTvlOnDate (data : value) (date : Date) : completion value :=
  let targetTimestamp := (getTime date / 1000)%float in
  bind (Get data "chainTvls") (fun chainTvls =>
  for_each (keys (enumerate chainTvls))
           (getTvlOnDate_step chainTvls targetTimestamp) (Num 0%float)).

Context `{Runtime value}.

Definition calculateTrailingAverageTvl (data : value) (endDateStr : string)
    : completion number :=
  let endDate := Date_parse (endDateStr ++ "T00:00:00Z") in
  bind (for_each (counter TRAILING_DAYS)
          (fun totalTvlForPeriod i =>
             let date := setUTCDate_back endDate i in
             bind (getTvlOnDate data date) (add totalTvlForPeriod))
          (Num 0%float))
       (fun totalTvlForPeriod =>
          divide totalTvlForPeriod (of_Z TRAILING_DAYS)).

End WithEngine.

End Unchecked.

(** What [main] stores under a slug. *)
Inductive result : Set :=
| Difference (difference : number)
| Message (text : string).

Section WithRuntime.
Context `{Engine} `{Runtime value}.

(** The [try] block of [main]: the difference it computes, or what it
    throws. *)
Definition attempt (slug : string) : completion number :=
  bind (fetchProtocolData slug) (fun protocolData =>
  bind (Unchecked.calculateTrailingAverageTvl protocolData METRIC_END_DATE)
       (fun t_end =>
  bind (Unchecked.calculateTrailingAverageTvl protocolData METRIC_START_DATE)
       (fun t_start =>
  let difference := (t_end - t_start)%float in
  Normal difference))).

(** The [try] block of [main] with its [catch]. *)
Definition process (slug : string) : result :=
  match attempt slug with
  | Normal difference => Difference difference
  | Throw _ => Message "Error processing project"
  end.

(** The loop of [main] over the projects; console output is not
    modelled. *)
Definition main_loop (projects : object string)
    (results : gmap string result) : gmap string result :=
  fold_left
    (fun results name =>
       match get projects name with
       | Some slug => <[slug := process slug]> results
       | None => results  (* not reached: [name] is a key *)
       end)
    (keys projects) results.

Definition main : gmap string result := main_loop PROJECTS ∅.

End WithRuntime.

End Node.


(** ** The revision of the script kept with the Venezuela market spec
    ([src/2025-11-shortlived.btc-us-venezuela-military-engagement/spec.md]) *)

Module Venezuela.
Import Js Defs.

Definition PROJECTS : object string :=
  [ ("Rocket Pool", "rocket-pool"); ("SuperForm", "superform");
    ("Balancer", "balancer"); ("Beets", "beets");
    ("Avantis", "avantis"); ("Polynomial", "polynomial-protocol");
    ("Extra Finance", "extra-finance"); ("Gyroscope", "gyroscope-protocol");
    ("Reservoir", "reservoir-protocol"); ("QiDAO", "qidao");
    ("Silo", "silo-finance"); ("Exactly", "exactly");
    ("Ionic Protocol", "ionic-protocol");
    ("Ironclad Finance", "ironclad-finance");
    ("Lets Get HAI", "lets-get-hai");
    ("Maverick Protocol", "maverick-protocol"); ("Metronome", "metronome");
    ("Overnight Finance", "overnight-finance");
    ("Peapods Finance", "peapods-finance"); ("Sushi", "sushi");
    ("SynFutures", "synfutures"); ("Thales", "thales");
    ("TLX Finance", "tlx-finance") ].

(** One turn of the loop over the chains in [getTvlOnDate]; the state is
    [(totalTvl, hasData)]. *)
Definition getTvlOnDate_step (data : DefiLlamaApiResponse)
    (targetTimestamp : number) (st : number * bool) (chain : string)
    : number * bool :=
  let '(totalTvl, hasData) := st in
  if has MAJOR_SUPERCHAIN_L2S chain then
    match get (chainTvls data) chain with
    | Some entry =>
        let tvlData := tvl entry in
        match Array_find
                (fun d => (Defs.date d =? targetTimestamp)%float) tvlData with
        | Some dayTvl => ((totalTvl + totalLiquidityUSD dayTvl)%float, true)
        | None => (totalTvl, hasData)
        end
    | None => (totalTvl, hasData)  (* not reached: [chain] is a key *)
    end
  else (totalTvl, hasData).

(** [None] is [null]. *)
Definition getTvlOnDate (data : DefiLlamaApiResponse) (date : Date)
    : option number :=
  let targetTimestamp := (getTime date / 1000)%float in
  let '(totalTvl, hasData) :=
    fold_left (getTvlOnDate_step data targetTimestamp)
              (keys (chainTvls data)) (0%float, false) in
  if hasData then Some totalTvl else None.

(** What [main] stores under a slug. *)
Record summary : Set :=
  { start : number; end_ : number; difference : number }.

Inductive result : Set :=
| Summary (s : summary)
| Message (text : string).

(** A line of the CSV file, kept as its fields: the numbers are the values
    of [Math.round], their decimal printing is not modelled. *)
Inductive csv_row : Set :=
| Header (text : string)
| Row (name : string) (start_value end_value difference_value : number)
| ErrorRow (name : string).

Section AtDeclaredType.
Context `{Runtime value}.

(** One turn of the loop over the days; the state is
    [(totalTvlForPeriod, nonNullDays)]. *)
Definition calculateTrailingAverageTvl_step (data : DefiLlamaApiResponse)
    (endDate : Date) (st : number * number) (i : Z) : number * number :=
  let '(totalTvlForPeriod, nonNullDays) := st in
  let date := setUTCDate_back endDate i in
  let dayTvl := getTvlOnDate data date in
  match dayTvl with
  | Some dayTvl => ((totalTvlForPeriod + dayTvl)%float, (nonNullDays + 1)%float)
  | None => (totalTvlForPeriod, nonNullDays)
  end.

Definition calculateTrailingAverageTvl (data : DefiLlamaApiResponse)
    (endDateStr : string) : number :=
  let endDate := Date_parse (endDateStr ++ "T00:00:00Z") in
  let '(totalTvlForPeriod, nonNullDays) :=
    fold_left (calculateTrailingAverageTvl_step data endDate)
              (counter TRAILING_DAYS) (0%float, 0%float) in
  if (0 <? nonNullDays)%float
  then (totalTvlForPeriod / nonNullDays)%float
  else 0%float.

End AtDeclaredType.

(** The same two functions as they run on any JSON value: [main] hands
    them the parsed body unchecked. *)
Module Unchecked.

Section WithEngine.
Context `{Engine}.

Definition getTvlOnDate_step (chainTvls : value) (targetTimestamp : number)
    (st : value * bool) (chain : string) : completion (value * bool) :=
  let '(totalTvl, hasData) := st in
  if has MAJOR_SUPERCHAIN_L2S chain then
    bind (Get chainTvls chain) (fun entry =>
    bind (Get entry "tvl") (fun tvlData =>
    bind (call_find tvlData
            (fun d =>
               bind (Get d "date")
                    (fun date =>
                       Normal (strictly_equals date targetTimestamp))))
         (fun dayTvl =>
            if ToBoolean dayTvl then
              bind (Get dayTvl "totalLiquidityUSD") (fun usd =>
              bind (add totalTvl usd) (fun totalTvl =>
              Normal (totalTvl, true)))
            else Normal (totalTvl, hasData))))
  else Normal (totalTvl, hasData).

Definition getTvlOnDate (data : value) (date : Date) : completion value :=
  let targetTimestamp := (getTime date / 1000)%float in
  bind (Get data "chainTvls") (fun chainTvls =>
  bind (for_each (keys (enumerate chainTvls))
          (getTvlOnDate_step chainTvls targetTimestamp)
          (Num 0%float, false))
       (fun st =>
          let '(totalTvl, hasData) := st in
          Normal (if hasData then totalTvl else Null))).

Context `{Runtime value}.

Definition calculateTrailingAverageTvl_step (data : value) (endDate : Date)
    (st : value * number) (i : Z) : completion (value * number) :=
  let '(totalTvlForPeriod, nonNullDays) := st in
  let date := setUTCDate_back endDate i in
  bind (getTvlOnDate data date) (fun dayTvl =>
  match dayTvl with
  | Null => Normal (totalTvlForPeriod, nonNullDays)
  | _ =>
      bind (add totalTvlForPeriod dayTvl) (fun totalTvlForPeriod =>
      Normal (totalTvlForPeriod, (nonNullDays + 1)%float))
  end).

Definition calculateTrailingAverageTvl (data : value) (endDateStr : string)
    : completion number :=
  let endDate := Date_parse (endDateStr ++ "T00:00:00Z") in
  bind (for_each (counter TRAILING_DAYS)
          (calculateTrailingAverageTvl_step data endDate)
          (Num 0%float, 0%float))
       (fun st =>
          let '(totalTvlForPeriod, nonNullDays) := st in
          if (0 <? nonNullDays)%float
          then divide totalTvlForPeriod nonNullDays
          else Normal 0%float).

End WithEngine.

End Unchecked.

Section WithRuntime.
Context `{Engine} `{Runtime value}.

(** The [try] block of [main] up to what it stores: the three numbers,
    or what it throws. *)
Definition attempt (slug : string) : completion summary :=
  bind (fetchProtocolData slug) (fun protocolData =>
  bind (Unchecked.calculateTrailingAverageTvl protocolData METRIC_END_DATE)
       (fun t_end =>
  bind (Unchecked.calculateTrailingAverageTvl protocolData METRIC_START_DATE)
       (fun t_start =>
  let difference := (t_end - t_start)%float in
  Normal {| start := t_start; end_ := t_end; difference := difference |}))).

(** The [try] block of [main] with its [catch]: the entry of [results]
    and the line of the CSV file. *)
Definition process (name slug : string) : result * csv_row :=
  match attempt slug with
  | Normal s =>
      (Summary s,
       Row name (Math_round (start s)) (Math_round (end_ s))
           (Math_round (difference s)))
  | Throw _ => (Message "Error processing project", ErrorRow name)
  end.

(** The loop of [main] over the projects; the state is
    [(results, csvRows)].  Console output is not modelled. *)
Definition main_loop (projects : object string)
    (st : gmap string result * list csv_row)
    : gmap string result * list csv_row :=
  fold_left
    (fun (st : gmap string result * list csv_row) name =>
       let '(results, csvRows) := st in
       match get projects name with
       | Some slug =>
           let '(entry, row) := process name slug in
           (<[slug := entry]> results, (csvRows ++ [row])%list)
       | None => st  (* not reached: [name] is a key *)
       end)
    (keys projects) st.

(** [main] returns what it prints last ([results]) and the lines it hands
    to [fs.writeFileSync]; the file system is not modelled. *)
Definition main : gmap string result * list csv_row :=
  main_loop PROJECTS
    (∅, [Header "Protocol,Start Value,End Value,Difference"]).

End WithRuntime.

End Venezuela.

(** ** A host to run the scripts on *)

Module Host.
Import Js Defs.

Definition digit (c : ascii) : option Z :=
  let n := Z.of_nat (nat_of_ascii c) in
  if (48 <=? n) && (n <=? 57) then Some (n - 48) else None.

Fixpoint decimal (s : string) (acc : Z) : option Z :=
  match s with
  | EmptyString => Some acc
  | String c rest =>
      match digit c with
      | Some d => decimal rest (10 * acc + d)
      | None => None
      end
  end.

Definition leap (y : Z) : bool :=
  ((y mod 4 =? 0) && negb (y mod 100 =? 0)) || (y mod 400 =? 0).

Definition days_in_month (y m : Z) : Z :=
  if m =? 2 then (if leap y then 29 else 28)
  else if (m =? 4) || (m =? 6) || (m =? 9) || (m =? 11) then 30
  else 31.

(** Days from 1970-01-01 to the civil date [y]-[m]-[d]. *)
Definition days_from_civil (y m d : Z) : Z :=
  let y' := if m <=? 2 then y - 1 else y in
  let era := y' / 400 in
  let yoe := y' - era * 400 in
  let mp := (m + 9) mod 12 in
  let doy := (153 * mp + 2) / 5 + d - 1 in
  let doe := yoe * 365 + yoe / 4 - yoe / 100 + doy in
  era * 146097 + doe - 719468.

(** [new Date("YYYY-MM-DDT00:00:00Z")] on a calendar date with a
    four-digit year; every other string is an invalid date on this
    host.  Engines differ on the rest, and node accepts more than this
    host does (expanded years, a day past the end of a month). *)
Definition iso_date_parse (s : string) : Date :=
  if negb (String.eqb (substring 4 1 s) "-" && String.eqb (substring 7 1 s) "-"
           && String.eqb (substring 10 (String.length s - 10) s) "T00:00:00Z"
           && Nat.eqb (String.length s) 20)
  then None
  else
    match decimal (substring 0 4 s) 0, decimal (substring 5 2 s) 0,
          decimal (substring 8 2 s) 0 with
    | Some y, Some m, Some d =>
        if (1 <=? m) && (m <=? 12) && (1 <=? d) && (d <=? days_in_month y m)
        then TimeClip (days_from_civil y m d * msPerDay)
        else None
    | _, _, _ => None
    end.

(** A host that serves stored payloads: [payloads] maps a URL to the
    body served with status 200; any other request fails. *)
Definition serving (payloads : object value) : Runtime value :=
  {| Date_parse := iso_date_parse;
     http_get url :=
       match get payloads url with
       | Some body =>
           Normal {| ok := true; statusText := "OK"; json := Normal body |}
       | None => Throw "request failed"
       end |}.

(** An engine for the examples.  No example converts between numbers
    and strings, so it is kept trivial: it is right only for the number
    NaN and for the strings that do not spell a number. *)
Definition engine : Engine :=
  {| Number_toString := fun _ => "NaN";
     String_toNumber := fun _ => PrimFloat.nan |}.

End Host.

(** ** The window resolver and the rounder of the engine

    The command-line tools that implement them are not among the sources
    at hand; both are taken from the engine specification. *)

Module Engine.

(** Modelled from the spec: the [Window] record of the data model; the
    implementation of the window resolver is missing. *)
Record Window : Set := { start : Z; end_ : Z }.

(** Modelled from the spec: the Offset+Duration rule of the missing
    window resolver.  [start = anchor + cooldown]; when [start] is not
    aligned to the sampling granularity it is rounded up to the next grid
    boundary; [end = start + duration]. *)
Definition resolve_offset_duration (grid anchor cooldown duration : Z)
    : Window :=
  let start := anchor + cooldown in
  let start :=
    if start mod grid =? 0 then start else (start / grid + 1) * grid in
  {| start := start; end_ := start + duration |}.

(** Modelled from the spec: the inclusion rule of a half-open window, as
    the missing normalizer applies it. *)
Definition in_window (w : Window) (timestamp : Z) : bool :=
  (start w <=? timestamp) && (timestamp <? end_ w).

Definition window_filter {V : Type} (w : Window) (samples : list (Z * V))
    : list (Z * V) :=
  List.filter (fun s => in_window w (fst s)) samples.

(** [ceil_to_grid grid t] is the least multiple of [grid] that is not
    below [t], written with a ceiling division. *)
Definition ceil_to_grid (grid t : Z) : Z := - ((- t) / grid) * grid.

(** Modelled from the spec: the missing rounder, on exact rationals.
    [round scalar policy] is applied to [scalar * 100]; half-up is
    [floor (x + 0.5)], ceiling is the smallest integer not below [x]. *)
Inductive policy : Set := HalfUp | Ceiling.

Definition half_up (x : Q) : Z := Qfloor (x + (1 # 2)).

Definition round (scalar : Q) (p : policy) : Z :=
  let x := (scalar * 100)%Q in
  match p with
  | HalfUp => half_up x
  | Ceiling => Qceiling x
  end.

(** Rounding a tie to the even neighbour, to compare with. *)
Definition half_even (x : Q) : Z :=
  let lo := Qfloor x in
  match Qcompare (x - inject_Z lo) (1 # 2) with
  | Lt => lo
  | Gt => lo + 1
  | Eq => if Z.even lo then lo else lo + 1
  end.

End Engine.

(** ** What the scripts sum, written as lists

    These definitions only serve to state the properties below. *)

Module Samples.
Import Js Defs.

(** Left-to-right binary64 sum, starting from [0] as the scripts do. *)
Definition sum (values : list number) : number :=
  fold_left PrimFloat.add values 0%float.

(** The data point of [chain] at a timestamp, if any. *)
Definition day_entry (data : DefiLlamaApiResponse) (targetTimestamp : number)
    (chain : string) : option TvlDataItem :=
  match get (chainTvls data) chain with
  | Some entry =>
      Array_find (fun d => (Defs.date d =? targetTimestamp)%float) (tvl entry)
  | None => None
  end.

(** A chain key without ['-']. *)
Fixpoint dash_free (s : string) : bool :=
  match s with
  | EmptyString => true
  | String c rest => negb (Ascii.eqb c "-") && dash_free rest
  end.

(** Which chain keys each script counts. *)
Definition node_counts (chain : string) : bool :=
  has MAJOR_SUPERCHAIN_L2S (nth 0 (split "-" chain) "").

Definition venezuela_counts (chain : string) : bool :=
  has MAJOR_SUPERCHAIN_L2S chain.

(** What a chain key contributes to the total of a day: its value at the
    timestamp when the key is counted and has a data point there. *)
Definition chain_contribution (counts : string -> bool)
    (data : DefiLlamaApiResponse) (targetTimestamp : number) (chain : string)
    : list (string * number) :=
  if counts chain then
    match day_entry data targetTimestamp chain with
    | Some dayTvl => [(chain, totalLiquidityUSD dayTvl)]
    | None => []
    end
  else [].

(** The chain keys that contribute to the total of a day, each with the
    value it contributes, in enumeration order. *)
Definition contributions (counts : string -> bool)
    (data : DefiLlamaApiResponse) (date : Date) : list (string * number) :=
  let targetTimestamp := (getTime date / 1000)%float in
  flat_map (chain_contribution counts data targetTimestamp)
           (keys (chainTvls data)).

(** The days of the trailing window, most recent first. *)
Definition window_dates `{Runtime value} (endDateStr : string)
    : list Date :=
  List.map (setUTCDate_back (Date_parse (endDateStr ++ "T00:00:00Z")))
           (counter TRAILING_DAYS).

(** The daily totals that are retained: the days on which at least one
    counted chain has a data point. *)
Definition retained `{Runtime value}
    (data : DefiLlamaApiResponse) (endDateStr : string) : list number :=
  flat_map
    (fun date =>
       match contributions venezuela_counts data date with
       | [] => []
       | cs => [sum (List.map snd cs)]
       end)
    (window_dates endDateStr).

(** Exact arithmetic on the values of numbers. *)
Definition Qsum (values : list Q) : Q := fold_left Qplus values 0%Q.

Definition exact_or_0 (x : number) : Q :=
  match exactQ x with Some q => q | None => 0%Q end.

(** Every addition of the left-to-right sum of [values] from [acc] is
    exact: the sum of the two exact values is again the value of a number,
    the one computed. *)
Fixpoint additions_exact (acc : number) (values : list number) : bool :=
  match values with
  | [] => true
  | v :: rest =>
      match exactQ acc, exactQ v with
      | Some a, Some b =>
          representsb (acc + v)%float (a + b)%Q
          && additions_exact (acc + v)%float rest
      | _, _ => false
      end
  end.

Definition division_exact (x y : number) : bool :=
  match exactQ x, exactQ y with
  | Some a, Some b =>
      negb (Qeq_bool b 0) && representsb (x / y)%float (a / b)%Q
  | _, _ => false
  end.

Definition subtraction_exact (x y : number) : bool :=
  match exactQ x, exactQ y with
  | Some a, Some b => representsb (x - y)%float (a - b)%Q
  | _, _ => false
  end.

End Samples.

(** ** Responses to run the scripts on *)

Module Examples.
Import Js Defs.

(** Midnight UTC, [n] days before 2025-06-12, in seconds. *)
Definition day (n : Z) : number := of_Z (1749686400 - n * 86400).

(** 2025-06-12T00:00:00Z as a [Date]. *)
Definition end_date : Date := Some 1749686400000.

Definition point (n : Z) (usd : number) : TvlDataItem :=
  {| date := day n; totalLiquidityUSD := usd |}.

Definition response (chains : list (string * list TvlDataItem))
    : DefiLlamaApiResponse :=
  {| chainTvls := List.map (fun c => (fst c, {| tvl := snd c |})) chains |}.

(** Nothing that counts in the window: a chain outside the Superchain
    list, and a counted chain whose only point is years earlier. *)
Definition no_samples : DefiLlamaApiResponse :=
  response [ ("Ethereum", [point 0 5000]); ("Base", [point 3650 3]) ].

(** Two of the seven days have data. *)
Definition two_days : DefiLlamaApiResponse :=
  response [ ("Base", [point 3 1400; point 0 700]) ].

(** Values that are not sums of few powers of two. *)
Definition tenths : DefiLlamaApiResponse :=
  response [ ("Base", [point 1 0.2; point 0 0.1]) ].

(** A full week of whole dollars. *)
Definition whole_week : DefiLlamaApiResponse :=
  response
    [ ("Base", [ point 6 7; point 5 14; point 4 21; point 3 28; point 2 35;
                 point 1 42; point 0 49 ]);
      ("Ethereum", [ point 0 1000 ]) ].

(** Two points of one chain on the same date, after an older one. *)
Definition duplicated : DefiLlamaApiResponse :=
  response [ ("Base", [ point 1 5; point 0 1; point 0 2 ]) ].

(** A full week on a bare chain key and on a suffixed key of it. *)
Definition staking_week : DefiLlamaApiResponse :=
  response
    [ ("Base", [ point 6 70; point 5 70; point 4 70; point 3 70; point 2 70;
                 point 1 70; point 0 70 ]);
      ("Base-staking", [ point 6 7; point 5 7; point 4 7; point 3 7;
                         point 2 7; point 1 7; point 0 7 ]) ].

(** A host with stored payloads for three projects; the request for
    every other project fails. *)
Definition host : Runtime value :=
  Host.serving
    [ ("https://api.llama.fi/protocol/rocket-pool", to_json whole_week);
      ("https://api.llama.fi/protocol/superform", to_json no_samples);
      ("https://api.llama.fi/protocol/avantis", to_json two_days) ].

(** The same payloads for the three projects, and one more that no
    project asks for. *)
Definition mirror : Runtime value :=
  Host.serving
    [ ("https://api.llama.fi/protocol/unrelated", to_json tenths);
      ("https://api.llama.fi/protocol/rocket-pool", to_json whole_week);
      ("https://api.llama.fi/protocol/superform", to_json no_samples);
      ("https://api.llama.fi/protocol/avantis", to_json two_days) ].

(** The same host, except that the request for [superform] fails. *)
Definition failing_host : Runtime value :=
  Host.serving
    [ ("https://api.llama.fi/protocol/rocket-pool", to_json whole_week);
      ("https://api.llama.fi/protocol/avantis", to_json two_days) ].

(** A body with status 200 that has a counted chain without a [tvl]
    array: the JSON text [{"chainTvls":{"Base":{}}}]. *)
Definition no_tvl_array : value :=
  Obj [ ("chainTvls", Obj [ ("Base", Obj []) ]) ].

(** The same host, except that the request for [superform] is answered
    with that body. *)
Definition misshapen_host : Runtime value :=
  Host.serving
    [ ("https://api.llama.fi/protocol/rocket-pool", to_json whole_week);
      ("https://api.llama.fi/protocol/superform", no_tvl_array);
      ("https://api.llama.fi/protocol/avantis", to_json two_days) ].

Definition three_projects : object string :=
  [ ("Rocket Pool", "rocket-pool"); ("SuperForm", "superform");
    ("Avantis", "avantis") ].

End Examples.

(** ** Responses derived from a response

    These definitions serve to state how the scripts react to a change
    of the response. *)

Module Variations.
Import Js Defs Samples.

(** The response without the chain keys that [counts] rejects. *)
Definition only_counted (counts : string -> bool)
    (data : DefiLlamaApiResponse) : DefiLlamaApiResponse :=
  {| chainTvls := List.filter (fun kv => counts (fst kv)) (chainTvls data) |}.

(** The timestamps that the trailing window looks for. *)
Definition window_timestamps `{Runtime value}
    (endDateStr : string) : list number :=
  List.map (fun date => (getTime date / 1000)%float) (window_dates endDateStr).

(** The response in which every [tvl] array keeps only the data points
    whose date is one of [timestamps]. *)
Definition at_timestamps (timestamps : list number)
    (data : DefiLlamaApiResponse) : DefiLlamaApiResponse :=
  {| chainTvls :=
       List.map
         (fun kv =>
            (fst kv,
             {| tvl :=
                  List.filter
                    (fun d =>
                       existsb (fun t => (Defs.date d =? t)%float) timestamps)
                    (tvl (snd kv)) |}))
         (chainTvls data) |}.

(** Two responses with the same chain keys in the same order, whose [tvl]
    arrays hold the same data points in any order. *)
Definition reordered (data data' : DefiLlamaApiResponse) : Prop :=
  Forall2
    (fun kv kv' =>
       fst kv = fst kv' /\ Permutation (tvl (snd kv)) (tvl (snd kv')))
    (chainTvls data) (chainTvls data').

(** No [tvl] array holds two different data points at the timestamp. *)
Definition one_point_at (targetTimestamp : number)
    (data : DefiLlamaApiResponse) : Prop :=
  forall chain entry x y,
    In (chain, entry) (chainTvls data) ->
    In x (tvl entry) -> In y (tvl entry) ->
    (Defs.date x =? targetTimestamp)%float = true ->
    (Defs.date y =? targetTimestamp)%float = true ->
    x = y.

(** The daily totals of the days of the window on which the Venezuela
    revision finds data, most recent first. *)
Definition days_with_data `{Runtime value}
    (data : DefiLlamaApiResponse) (endDateStr : string) : list number :=
  flat_map
    (fun date =>
       match Venezuela.getTvlOnDate data date with
       | Some dayTvl => [dayTvl]
       | None => []
       end)
    (window_dates endDateStr).

(** No string occurs twice in the list. *)
Fixpoint distinct (l : list string) : bool :=
  match l with
  | [] => true
  | x :: rest => negb (existsb (String.eqb x) rest) && distinct rest
  end.

(** Whether [entry.tvl] is an array. *)
Definition has_tvl_array (entry : value) : bool :=
  match Get entry "tvl" with
  | Normal (Arr _) => true
  | _ => false
  end.

(** A body on which the first read throws: [null], or an object whose
    [chainTvls] object has a counted chain, the first of which has no
    [tvl] array. *)
Definition lacks_tvl_array (counts : string -> bool) (body : value) : bool :=
  match body with
  | Null => true
  | Obj properties =>
      match get properties "chainTvls" with
      | Some (Obj chains) =>
          match List.find (fun kv => counts (fst kv)) chains with
          | Some (_, entry) => negb (has_tvl_array entry)
          | None => false
          end
      | _ => false
      end
  | _ => false
  end.

(** [Examples.two_days] with the array of its chain reversed. *)
Definition two_days_reversed : DefiLlamaApiResponse :=
  Examples.response
    [ ("Base", [Examples.point 0 700; Examples.point 3 1400]) ].

End Variations.

(** * Properties *)

(** ** Objects, loops and sums *)

Section ObjectFacts.
Import Js.
Context {V : Type}.
Implicit Types (o : object V) (k : string) (v : V).

Lemma get_Some_In o k v : get o k = Some v -> In (k, v) o.
Proof.
  induction o as [|[k' v'] o IH]; simpl; [discriminate|].
  destruct (String.eqb_spec k' k) as [->|Hne].
  - intros [= ->]. now left.
  - intros Hget. right. now apply IH.
Qed.

Lemma get_In o k v : well_formed o -> In (k, v) o -> get o k = Some v.
Proof.
  unfold well_formed, keys.
  induction o as [|[k' v'] o IH]; simpl; [intros _ []|].
  intros Hnd [Heq|Hin].
  - injection Heq as -> ->. now rewrite String.eqb_refl.
  - apply NoDup_cons_iff in Hnd as [Hnotin Hnd].
    destruct (String.eqb_spec k' k) as [->|Hne].
    + exfalso. apply Hnotin. apply in_map_iff. now exists (k, v).
    + now apply IH.
Qed.

Lemma get_key o k : In k (keys o) -> exists v, get o k = Some v.
Proof.
  unfold keys.
  induction o as [|[k' v'] o IH]; simpl; [intros []|].
  destruct (String.eqb_spec k' k) as [->|Hne]; [eauto|].
  intros [Heq|Hin]; [contradiction|]. now apply IH.
Qed.

End ObjectFacts.

Lemma fold_left_ext_in {A B : Type} (f g : A -> B -> A) (l : list B) :
  (forall a x, In x l -> f a x = g a x) ->
  forall a, fold_left f l a = fold_left g l a.
Proof.
  induction l as [|x l IH]; simpl; intros Hfg a; [reflexivity|].
  rewrite Hfg by now left. apply IH. intros; apply Hfg; now right.
Qed.

Lemma fold_left_map_in {A B C : Type} (f : A -> B -> A) (g : C -> B)
    (l : list C) (a : A) :
  fold_left f (List.map g l) a = fold_left (fun a x => f a (g x)) l a.
Proof. revert a. induction l as [|x l IH]; intros a; simpl; auto. Qed.

Lemma split_not_nil sep s : Js.split sep s <> [].
Proof.
  destruct s as [|c s]; simpl; [discriminate|].
  destruct (Ascii.eqb c sep); [discriminate|].
  destruct (Js.split sep s); discriminate.
Qed.

(** A chain key without ['-'] is its own first segment. *)
Lemma split_dash_free s : Samples.dash_free s = true -> Js.split "-" s = [s].
Proof.
  induction s as [|c s IH]; simpl; [reflexivity|].
  destruct (Ascii.eqb c "-"); simpl; [discriminate|].
  intros Hs. now rewrite IH.
Qed.

(** The first segment of [prefix ++ "-" ++ suffix]. *)
Lemma split_prefix prefix suffix :
  Samples.dash_free prefix = true ->
  nth 0 (Js.split "-" (prefix ++ String "-" suffix)) "" = prefix.
Proof.
  induction prefix as [|c p IH]; simpl.
  - reflexivity.
  - destruct (Ascii.eqb c "-"); simpl; [discriminate|].
    intros Hp. specialize (IH Hp).
    destruct (Js.split "-" (p ++ String "-" suffix)) as [|seg segs] eqn:E.
    + now destruct (split_not_nil _ _ E).
    + simpl in *. now subst.
Qed.

(** ** The daily total is the sum of the contributions *)

Section DailyTotal.
Import Js Defs Samples.

Lemma node_step_contribution data t acc chain :
  Node.getTvlOnDate_step data t acc chain =
  fold_left PrimFloat.add
    (List.map snd (chain_contribution node_counts data t chain)) acc.
Proof.
  unfold Node.getTvlOnDate_step, chain_contribution, node_counts, day_entry.
  destruct (has _ _); [|reflexivity].
  destruct (get _ chain) as [entry|]; [|reflexivity].
  now destruct (Array_find _ _).
Qed.

Lemma node_loop_contributions data t ks acc :
  fold_left (Node.getTvlOnDate_step data t) ks acc =
  fold_left PrimFloat.add
    (List.map snd (flat_map (chain_contribution node_counts data t) ks)) acc.
Proof.
  revert acc. induction ks as [|chain ks IH]; intros acc; [reflexivity|].
  cbn [fold_left flat_map].
  now rewrite IH, map_app, fold_left_app, node_step_contribution.
Qed.

Lemma node_getTvlOnDate_sum data date :
  Node.getTvlOnDate data date =
  sum (List.map snd (contributions node_counts data date)).
Proof. apply node_loop_contributions. Qed.

Lemma venezuela_step_contribution data t acc hasData chain :
  Venezuela.getTvlOnDate_step data t (acc, hasData) chain =
  let cs := chain_contribution venezuela_counts data t chain in
  (fold_left PrimFloat.add (List.map snd cs) acc,
   match cs with [] => hasData | _ => true end).
Proof.
  unfold Venezuela.getTvlOnDate_step, chain_contribution, venezuela_counts,
    day_entry.
  destruct (has _ chain); [|reflexivity].
  destruct (get _ chain) as [entry|]; [|reflexivity].
  now destruct (Array_find _ _).
Qed.

Lemma venezuela_loop_contributions data t ks acc hasData :
  fold_left (Venezuela.getTvlOnDate_step data t) ks (acc, hasData) =
  let cs := flat_map (chain_contribution venezuela_counts data t) ks in
  (fold_left PrimFloat.add (List.map snd cs) acc,
   match cs with [] => hasData | _ => true end).
Proof.
  revert acc hasData.
  induction ks as [|chain ks IH]; intros acc hasData; [reflexivity|].
  cbn [fold_left flat_map].
  rewrite venezuela_step_contribution. cbn zeta. rewrite IH. cbn zeta.
  rewrite map_app, fold_left_app. f_equal.
  destruct (chain_contribution _ _ _ chain); [reflexivity|].
  now destruct (flat_map _ ks).
Qed.

Lemma venezuela_getTvlOnDate_sum data date :
  Venezuela.getTvlOnDate data date =
  match contributions venezuela_counts data date with
  | [] => None
  | cs => Some (sum (List.map snd cs))
  end.
Proof.
  unfold Venezuela.getTvlOnDate. rewrite venezuela_loop_contributions.
  cbn zeta. unfold contributions, sum.
  now destruct (flat_map _ _).
Qed.

End DailyTotal.

(** ** The trailing average over the window *)

Section TrailingAverage.
Import Js Defs Samples.
Context `{Runtime value}.

Lemma window_dates_length endDateStr :
  length (window_dates endDateStr) = 7%nat.
Proof. unfold window_dates. now rewrite length_map. Qed.

(** [src/node/index.ts]: the sum of the seven daily totals, divided by
    the constant 7. *)
Lemma node_average data endDateStr :
  Node.calculateTrailingAverageTvl data endDateStr =
  (sum (List.map (Node.getTvlOnDate data) (window_dates endDateStr)) / 7)%float.
Proof.
  unfold Node.calculateTrailingAverageTvl, window_dates, sum.
  rewrite map_map, fold_left_map_in. reflexivity.
Qed.

Lemma venezuela_loop data endDate days total n :
  fold_left (Venezuela.calculateTrailingAverageTvl_step data endDate) days
            (total, n) =
  let vs :=
    flat_map
      (fun i =>
         match Venezuela.getTvlOnDate data (setUTCDate_back endDate i) with
         | Some dayTvl => [dayTvl]
         | None => []
         end) days in
  (fold_left PrimFloat.add vs total,
   fold_left (fun n _ => (n + 1)%float) vs n).
Proof.
  revert total n.
  induction days as [|i days IH]; intros total n; [reflexivity|].
  cbn [fold_left flat_map].
  unfold Venezuela.calculateTrailingAverageTvl_step at 2.
  destruct (Venezuela.getTvlOnDate _ _) as [dayTvl|]; rewrite IH; reflexivity.
Qed.

Lemma retained_flat_map data endDateStr :
  retained data endDateStr =
  flat_map
    (fun i =>
       let endDate := Date_parse (endDateStr ++ "T00:00:00Z") in
       match Venezuela.getTvlOnDate data (setUTCDate_back endDate i) with
       | Some dayTvl => [dayTvl]
       | None => []
       end) (counter TRAILING_DAYS).
Proof.
  unfold retained, window_dates.
  induction (counter TRAILING_DAYS) as [|i days IH]; [reflexivity|].
  cbn [List.map flat_map]. f_equal; [|exact IH].
  rewrite venezuela_getTvlOnDate_sum.
  now destruct (contributions _ _ _).
Qed.

Lemma retained_length data endDateStr :
  (length (retained data endDateStr) <= 7)%nat.
Proof.
  unfold retained. rewrite <- (window_dates_length endDateStr).
  induction (window_dates endDateStr) as [|d ds IH]; [reflexivity|].
  cbn [flat_map]. rewrite length_app. cbn [length].
  destruct (contributions _ _ d); cbn [length]; lia.
Qed.

(** The Venezuela revision: the sum of the retained daily totals divided by
    their number, and [0] when no day is retained. *)
Lemma venezuela_average data endDateStr :
  Venezuela.calculateTrailingAverageTvl data endDateStr =
  match retained data endDateStr with
  | [] => 0%float
  | vs => (sum vs / of_Z (Z.of_nat (length vs)))%float
  end.
Proof.
  pose proof (retained_length data endDateStr) as Hlen.
  unfold Venezuela.calculateTrailingAverageTvl.
  rewrite venezuela_loop. cbn zeta. rewrite <- retained_flat_map.
  unfold sum.
  remember (retained data endDateStr) as vs eqn:E. clear E.
  do 8 (destruct vs as [|? vs]; [reflexivity|]).
  cbn [length] in Hlen. lia.
Qed.

End TrailingAverage.

(** ** Bodies of the declared shape, and bodies of another shape *)

Section UncheckedFacts.
Import Js Defs.

Lemma for_each_fold {S S' A : Type} (inj : S' -> S)
    (body : S -> A -> completion S) (f : S' -> A -> S') (l : list A) :
  (forall s x, In x l -> body (inj s) x = Normal (inj (f s x))) ->
  forall s, for_each l body (inj s) = Normal (inj (fold_left f l s)).
Proof.
  induction l as [|x l IH]; intros Hbody s; [reflexivity|].
  cbn [for_each fold_left]. rewrite Hbody by now left. cbn [bind].
  apply IH. intros s' y Hy. apply Hbody. now right.
Qed.

Lemma for_each_throw {S A : Type} (body : S -> A -> completion S)
    (before after : list A) (x : A) (s : S) (error : string) :
  (forall s' y, In y before -> body s' y = Normal s') ->
  body s x = Throw error ->
  for_each (before ++ x :: after) body s = Throw error.
Proof.
  intros Hbefore Hx. induction before as [|y before IH]; cbn [app for_each].
  - now rewrite Hx.
  - rewrite Hbefore by now left. cbn [bind]. apply IH.
    intros s' z Hz. apply Hbefore. now right.
Qed.

Lemma traverse_keys {V W : Type} (f : V -> option W) (o : object V)
    (o' : object W) :
  traverse
    (fun kv => match f (snd kv) with
               | Some w => Some (fst kv, w)
               | None => None
               end) o = Some o' ->
  keys o = keys o'.
Proof.
  revert o'. induction o as [|[k v] o IH]; intros o'; cbn [traverse fst snd].
  - now intros [= <-].
  - destruct (f v) as [w|]; [|discriminate].
    destruct (traverse _ o) as [ws|]; [|discriminate].
    intros [= <-]. cbn. f_equal. now apply IH.
Qed.

Lemma traverse_get {V W : Type} (f : V -> option W) (o : object V)
    (o' : object W) k :
  traverse
    (fun kv => match f (snd kv) with
               | Some w => Some (fst kv, w)
               | None => None
               end) o = Some o' ->
  match get o k with
  | Some v => exists w, f v = Some w /\ get o' k = Some w
  | None => get o' k = None
  end.
Proof.
  revert o'. induction o as [|[k' v] o IH]; intros o'; cbn [traverse fst snd].
  - now intros [= <-].
  - destruct (f v) as [w|] eqn:Ev; [|discriminate].
    destruct (traverse _ o) as [ws|]; [|discriminate].
    intros [= <-]. cbn [get]. destruct (String.eqb k' k).
    + now exists w.
    + now apply IH.
Qed.

(** On an array of data points of the declared shape, [find] runs
    without a TypeError and finds the element that the typed [find]
    finds. *)
Lemma find_decoded (t : number) (elements : list value)
    (items : list TvlDataItem) :
  traverse decode_item elements = Some items ->
  exists r,
    Array_find_in
      (fun d => bind (Get d "date")
                     (fun date => Normal (strictly_equals date t)))
      elements = Normal r
    /\ match Array_find (fun d => (Defs.date d =? t)%float) items with
       | Some item =>
           ToBoolean r = true
           /\ Get r "totalLiquidityUSD" = Normal (Num (totalLiquidityUSD item))
       | None => r = Undefined
       end.
Proof.
  unfold Array_find. revert items.
  induction elements as [|d elements IH]; intros items; cbn [traverse].
  - intros [= <-]. now exists Undefined.
  - destruct (decode_item d) as [item|] eqn:Ed; [|discriminate].
    destruct (traverse decode_item elements) as [rest|]; [|discriminate].
    intros [= <-]. cbn [Array_find_in find].
    unfold decode_item in Ed. destruct d as [| | | | | |properties];
      try discriminate Ed.
    destruct (get properties "date") as [[| | |x| | |]|] eqn:Edate;
      try discriminate Ed.
    destruct (get properties "totalLiquidityUSD") as [[| | |usd| | |]|]
      eqn:Eusd; try discriminate Ed.
    injection Ed as <-. cbn [Defs.date totalLiquidityUSD].
    unfold Get at 1. cbn [enumerate]. rewrite Edate. cbn [bind strictly_equals].
    destruct (x =? t)%float.
    + eexists. split; [reflexivity|]. split; [reflexivity|].
      unfold Get. cbn [enumerate]. now rewrite Eusd.
    + now apply IH.
Qed.

Section WithEngine.
Context `{Engine}.

Lemma add_numbers (x y : number) :
  add (Num x) (Num y) = Normal (Num (x + y)%float).
Proof. reflexivity. Qed.

Lemma node_unchecked_step (chains : list (string * value))
    (data : DefiLlamaApiResponse) t totalTvl chain :
  traverse
    (fun kv => match decode_chain (snd kv) with
               | Some c => Some (fst kv, c)
               | None => None
               end) chains = Some (chainTvls data) ->
  In chain (keys chains) ->
  Node.Unchecked.getTvlOnDate_step (Obj chains) t (Num totalTvl) chain =
  Normal (Num (Node.getTvlOnDate_step data t totalTvl chain)).
Proof.
  intros Hdecode Hkey. destruct (get_key chains chain Hkey) as [found Hfound].
  unfold Node.Unchecked.getTvlOnDate_step, Node.getTvlOnDate_step.
  destruct (has _ _); [|reflexivity].
  pose proof (traverse_get decode_chain chains (chainTvls data) chain Hdecode)
    as Hget.
  unfold Get at 1. cbn [enumerate bind].
  destruct (get chains chain) as [entry|].
  - destruct Hget as (c & Hc & ->). unfold decode_chain in Hc.
    destruct entry as [| | | | | |properties]; try discriminate Hc.
    destruct (get properties "tvl") as [[| | | | |elements|]|] eqn:Etvl;
      try discriminate Hc.
    destruct (traverse decode_item elements) as [items|] eqn:Eitems;
      [|discriminate Hc].
    injection Hc as <-. cbn [tvl].
    unfold Get at 1. cbn [enumerate]. rewrite Etvl. cbn [bind call_find].
    destruct (find_decoded t elements items Eitems) as (r & -> & Hr).
    cbn [bind].
    destruct (Array_find _ items) as [item|].
    + destruct Hr as [-> ->]. cbn [bind]. apply add_numbers.
    + subst r. reflexivity.
  - discriminate Hfound.
Qed.

(** On a body of the declared shape the unchecked daily total is the
    typed one. *)
Lemma node_unchecked_getTvlOnDate (body : value) (data : DefiLlamaApiResponse)
    (date : Date) :
  decode body = Some data ->
  Node.Unchecked.getTvlOnDate body date =
  Normal (Num (Node.getTvlOnDate data date)).
Proof.
  unfold decode. destruct body as [| | | | | |properties]; try discriminate.
  destruct (get properties "chainTvls") as [[| | | | | |chains]|] eqn:Ec;
    try discriminate.
  destruct (traverse _ chains) as [decoded|] eqn:Et; [|discriminate].
  intros [= <-].
  unfold Node.Unchecked.getTvlOnDate, Node.getTvlOnDate.
  unfold Get. cbn [enumerate]. rewrite Ec. cbn [bind chainTvls enumerate].
  rewrite (traverse_keys decode_chain chains decoded Et).
  apply (for_each_fold Num). intros s chain Hkey.
  apply (node_unchecked_step chains {| chainTvls := decoded |}); [exact Et|].
  now rewrite (traverse_keys decode_chain chains decoded Et).
Qed.

Lemma venezuela_unchecked_step (chains : list (string * value))
    (data : DefiLlamaApiResponse) t totalTvl hasData chain :
  traverse
    (fun kv => match decode_chain (snd kv) with
               | Some c => Some (fst kv, c)
               | None => None
               end) chains = Some (chainTvls data) ->
  In chain (keys chains) ->
  Venezuela.Unchecked.getTvlOnDate_step (Obj chains) t
    (Num totalTvl, hasData) chain =
  Normal (let st := Venezuela.getTvlOnDate_step data t (totalTvl, hasData)
                      chain in
          (Num (fst st), snd st)).
Proof.
  intros Hdecode Hkey. destruct (get_key chains chain Hkey) as [found Hfound].
  unfold Venezuela.Unchecked.getTvlOnDate_step, Venezuela.getTvlOnDate_step.
  destruct (has _ _); [|reflexivity].
  pose proof (traverse_get decode_chain chains (chainTvls data) chain Hdecode)
    as Hget.
  unfold Get at 1. cbn [enumerate bind].
  destruct (get chains chain) as [entry|].
  - destruct Hget as (c & Hc & ->). unfold decode_chain in Hc.
    destruct entry as [| | | | | |properties]; try discriminate Hc.
    destruct (get properties "tvl") as [[| | | | |elements|]|] eqn:Etvl;
      try discriminate Hc.
    destruct (traverse decode_item elements) as [items|] eqn:Eitems;
      [|discriminate Hc].
    injection Hc as <-. cbn [tvl].
    unfold Get at 1. cbn [enumerate]. rewrite Etvl. cbn [bind call_find].
    destruct (find_decoded t elements items Eitems) as (r & -> & Hr).
    cbn [bind].
    destruct (Array_find _ items) as [item|].
    + destruct Hr as [-> ->]. cbn [bind]. now rewrite add_numbers.
    + subst r. reflexivity.
  - discriminate Hfound.
Qed.

Lemma venezuela_unchecked_getTvlOnDate (body : value)
    (data : DefiLlamaApiResponse) (date : Date) :
  decode body = Some data ->
  Venezuela.Unchecked.getTvlOnDate body date =
  Normal match Venezuela.getTvlOnDate data date with
         | Some totalTvl => Num totalTvl
         | None => Null
         end.
Proof.
  unfold decode. destruct body as [| | | | | |properties]; try discriminate.
  destruct (get properties "chainTvls") as [[| | | | | |chains]|] eqn:Ec;
    try discriminate.
  destruct (traverse _ chains) as [decoded|] eqn:Et; [|discriminate].
  intros [= <-].
  unfold Venezuela.Unchecked.getTvlOnDate, Venezuela.getTvlOnDate.
  unfold Get. cbn [enumerate]. rewrite Ec. cbn [bind chainTvls enumerate].
  rewrite (traverse_keys decode_chain chains decoded Et).
  assert (Hloop :
            for_each (keys decoded)
              (Venezuela.Unchecked.getTvlOnDate_step (Obj chains)
                 (getTime date / 1000)%float) (Num 0%float, false) =
            Normal
              (let st :=
                 fold_left
                   (Venezuela.getTvlOnDate_step {| chainTvls := decoded |}
                      (getTime date / 1000)%float)
                   (keys decoded) (0%float, false) in
               (Num (fst st), snd st))).
  { refine (for_each_fold
              (fun st : number * bool => (Num (fst st), snd st))
              _ (Venezuela.getTvlOnDate_step {| chainTvls := decoded |}
                   (getTime date / 1000)%float)
              (keys decoded) _ (0%float, false)).
    intros [totalTvl hasData] chain Hkey. cbn [fst snd].
    apply (venezuela_unchecked_step chains {| chainTvls := decoded |});
      [exact Et|].
    now rewrite (traverse_keys decode_chain chains decoded Et). }
  rewrite Hloop. cbn [bind chainTvls]. cbv zeta.
  destruct (fold_left _ _ _) as [totalTvl hasData]. cbn [fst snd].
  now destruct hasData.
Qed.

Context `{Runtime value}.

(** On a body of the declared shape the unchecked trailing averages do
    not throw and are the typed ones. *)
Lemma node_unchecked_average (body : value) (data : DefiLlamaApiResponse)
    (endDateStr : string) :
  decode body = Some data ->
  Node.Unchecked.calculateTrailingAverageTvl body endDateStr =
  Normal (Node.calculateTrailingAverageTvl data endDateStr).
Proof.
  intros Hdecode.
  unfold Node.Unchecked.calculateTrailingAverageTvl,
    Node.calculateTrailingAverageTvl.
  rewrite (for_each_fold Num _
             (fun total i =>
                (total + Node.getTvlOnDate data
                           (setUTCDate_back
                              (Date_parse (endDateStr ++ "T00:00:00Z")) i))
                        %float)).
  - reflexivity.
  - intros total i _.
    rewrite (node_unchecked_getTvlOnDate body data _ Hdecode).
    apply add_numbers.
Qed.

Lemma venezuela_unchecked_average (body : value)
    (data : DefiLlamaApiResponse) (endDateStr : string) :
  decode body = Some data ->
  Venezuela.Unchecked.calculateTrailingAverageTvl body endDateStr =
  Normal (Venezuela.calculateTrailingAverageTvl data endDateStr).
Proof.
  intros Hdecode.
  unfold Venezuela.Unchecked.calculateTrailingAverageTvl,
    Venezuela.calculateTrailingAverageTvl.
  assert (Hloop :
            for_each (counter TRAILING_DAYS)
              (Venezuela.Unchecked.calculateTrailingAverageTvl_step body
                 (Date_parse (endDateStr ++ "T00:00:00Z")))
              (Num 0%float, 0%float) =
            Normal
              (let st :=
                 fold_left
                   (Venezuela.calculateTrailingAverageTvl_step data
                      (Date_parse (endDateStr ++ "T00:00:00Z")))
                   (counter TRAILING_DAYS) (0%float, 0%float) in
               (Num (fst st), snd st))).
  { refine (for_each_fold
              (fun st : number * number => (Num (fst st), snd st))
              _ (Venezuela.calculateTrailingAverageTvl_step data
                   (Date_parse (endDateStr ++ "T00:00:00Z")))
              (counter TRAILING_DAYS) _ (0%float, 0%float)).
    intros [total n] i _. cbn [fst snd].
    unfold Venezuela.Unchecked.calculateTrailingAverageTvl_step,
      Venezuela.calculateTrailingAverageTvl_step.
    rewrite (venezuela_unchecked_getTvlOnDate body data _ Hdecode).
    cbn [bind]. now destruct (Venezuela.getTvlOnDate data _). }
  rewrite Hloop. cbn [bind]. cbv zeta.
  destruct (fold_left _ _ _) as [total n]. cbn [fst snd].
  now destruct (0 <? n)%float.
Qed.

(** *** Bodies on which the scripts throw *)

Lemma find_first {A : Type} (p : A -> bool) (l : list A) (x : A) :
  List.find p l = Some x ->
  exists before after,
    l = (before ++ x :: after)%list
    /\ p x = true
    /\ forall y, In y before -> p y = false.
Proof.
  induction l as [|y l IH]; cbn [List.find]; [discriminate|].
  destruct (p y) eqn:Hy.
  - intros [= ->]. exists [], l. repeat split; [exact Hy|intros ? []].
  - intros Hfind. destruct (IH Hfind) as (before & after & -> & Hx & Hbefore).
    exists (y :: before), after. repeat split; [exact Hx|].
    intros z [<-|Hz]; [exact Hy|now apply Hbefore].
Qed.

Lemma get_first {V : Type} (before after : object V) k (v : V) :
  ~ In k (keys before) ->
  get (before ++ (k, v) :: after)%list k = Some v.
Proof.
  unfold keys. induction before as [|[k' v'] before IH]; cbn; intros Hnotin.
  - now rewrite String.eqb_refl.
  - destruct (String.eqb_spec k' k) as [->|_]; [|apply IH]; tauto.
Qed.

Lemma node_getTvlOnDate_throws (body : value) (date : Date) :
  Variations.lacks_tvl_array Samples.node_counts body = true ->
  Node.Unchecked.getTvlOnDate body date = Throw "TypeError".
Proof.
  unfold Variations.lacks_tvl_array, Node.Unchecked.getTvlOnDate.
  destruct body as [| | | | | |properties]; try discriminate; [reflexivity|].
  unfold Get. cbn [enumerate].
  destruct (get properties "chainTvls") as [[| | | | | |chains]|];
    try discriminate.
  destruct (List.find _ chains) as [[chain entry]|] eqn:Hfind;
    [|discriminate].
  intros Hentry. apply negb_true_iff in Hentry.
  destruct (find_first _ _ _ Hfind) as (before & after & -> & Hx & Hbefore).
  cbn [fst] in Hx. cbn [bind enumerate]. unfold keys.
  rewrite List.map_app. cbn [List.map fst]. apply for_each_throw.
  - intros totalTvl k Hk. apply in_map_iff in Hk as ([k' v] & <- & Hk).
    unfold Node.Unchecked.getTvlOnDate_step. cbv zeta.
    apply Hbefore in Hk. unfold Samples.node_counts in Hk. cbn [fst] in *.
    now rewrite Hk.
  - unfold Node.Unchecked.getTvlOnDate_step. cbv zeta.
    unfold Samples.node_counts in Hx. rewrite Hx.
    unfold Get at 1. cbn [enumerate]. rewrite get_first.
    + cbn [bind].
      destruct (Get entry "tvl") as [tvlData|error] eqn:Hget; cbn [bind].
      * unfold Variations.has_tvl_array in Hentry. rewrite Hget in Hentry.
        now destruct tvlData.
      * destruct entry; unfold Get, TypeError in Hget;
          first [discriminate Hget | now injection Hget as <-].
    + intros Hin. apply in_map_iff in Hin as ([k' v] & Hk & Hin).
      cbn [fst] in Hk. subst k'. apply Hbefore in Hin. cbn [fst] in Hin.
      unfold Samples.node_counts in Hin. congruence.
Qed.

Lemma venezuela_getTvlOnDate_throws (body : value) (date : Date) :
  Variations.lacks_tvl_array Samples.venezuela_counts body = true ->
  Venezuela.Unchecked.getTvlOnDate body date = Throw "TypeError".
Proof.
  unfold Variations.lacks_tvl_array, Venezuela.Unchecked.getTvlOnDate.
  destruct body as [| | | | | |properties]; try discriminate; [reflexivity|].
  unfold Get. cbn [enumerate].
  destruct (get properties "chainTvls") as [[| | | | | |chains]|];
    try discriminate.
  destruct (List.find _ chains) as [[chain entry]|] eqn:Hfind;
    [|discriminate].
  intros Hentry. apply negb_true_iff in Hentry.
  destruct (find_first _ _ _ Hfind) as (before & after & -> & Hx & Hbefore).
  cbn [fst] in Hx. cbn [bind enumerate]. unfold keys.
  rewrite List.map_app. cbn [List.map fst].
  rewrite for_each_throw with (error := "TypeError"); [reflexivity| |].
  - intros [totalTvl hasData] k Hk.
    apply in_map_iff in Hk as ([k' v] & <- & Hk).
    unfold Venezuela.Unchecked.getTvlOnDate_step.
    apply Hbefore in Hk. unfold Samples.venezuela_counts in Hk.
    cbn [fst] in *. now rewrite Hk.
  - unfold Venezuela.Unchecked.getTvlOnDate_step.
    unfold Samples.venezuela_counts in Hx. rewrite Hx.
    unfold Get at 1. cbn [enumerate]. rewrite get_first.
    + cbn [bind].
      destruct (Get entry "tvl") as [tvlData|error] eqn:Hget; cbn [bind].
      * unfold Variations.has_tvl_array in Hentry. rewrite Hget in Hentry.
        now destruct tvlData.
      * destruct entry; unfold Get, TypeError in Hget;
          first [discriminate Hget | now injection Hget as <-].
    + intros Hin. apply in_map_iff in Hin as ([k' v] & Hk & Hin).
      cbn [fst] in Hk. subst k'. apply Hbefore in Hin. cbn [fst] in Hin.
      unfold Samples.venezuela_counts in Hin. congruence.
Qed.

Lemma node_average_throws (body : value) endDateStr :
  Variations.lacks_tvl_array Samples.node_counts body = true ->
  Node.Unchecked.calculateTrailingAverageTvl body endDateStr =
  Throw "TypeError".
Proof.
  intros Hbody. unfold Node.Unchecked.calculateTrailingAverageTvl.
  change (counter TRAILING_DAYS) with ([0; 1; 2; 3; 4; 5; 6])%Z.
  cbn [for_each]. now rewrite node_getTvlOnDate_throws.
Qed.

Lemma venezuela_average_throws (body : value) endDateStr :
  Variations.lacks_tvl_array Samples.venezuela_counts body = true ->
  Venezuela.Unchecked.calculateTrailingAverageTvl body endDateStr =
  Throw "TypeError".
Proof.
  intros Hbody. unfold Venezuela.Unchecked.calculateTrailingAverageTvl.
  change (counter TRAILING_DAYS) with ([0; 1; 2; 3; 4; 5; 6])%Z.
  cbn [for_each].
  unfold Venezuela.Unchecked.calculateTrailingAverageTvl_step at 1.
  now rewrite venezuela_getTvlOnDate_throws.
Qed.

End WithEngine.

(** The JSON of a response of the declared type has the declared
    shape. *)
Lemma decode_to_json (data : DefiLlamaApiResponse) :
  decode (to_json data) = Some data.
Proof.
  destruct data as [chains]. unfold decode, to_json. cbn [get chainTvls].
  rewrite String.eqb_refl.
  assert (Hitems : forall items,
            traverse decode_item
              (List.map
                 (fun d =>
                    Obj [ ("date", Num (date d));
                          ("totalLiquidityUSD", Num (totalLiquidityUSD d)) ])
                 items) = Some items).
  { induction items as [|[d usd] items IH]; [reflexivity|].
    cbn [List.map traverse]. rewrite IH. reflexivity. }
  assert (Hchains :
            traverse
              (fun kv => match decode_chain (snd kv) with
                         | Some c => Some (fst kv, c)
                         | None => None
                         end)
              (List.map
                 (fun kv =>
                    (fst kv,
                     Obj [ ("tvl",
                            Arr (List.map
                                   (fun d =>
                                      Obj [ ("date", Num (date d));
                                            ("totalLiquidityUSD",
                                             Num (totalLiquidityUSD d)) ])
                                   (tvl (snd kv)))) ]))
                 chains) = Some chains).
  { induction chains as [|[k [items]] chains IH]; [reflexivity|].
    cbn [List.map traverse fst snd tvl]. rewrite IH.
    unfold decode_chain. cbn [get]. rewrite String.eqb_refl.
    now rewrite Hitems. }
  now rewrite Hchains.
Qed.

End UncheckedFacts.

(** ** The loop of [main] *)

Section MainLoop.
Import Js Defs.

(** Enumerating the keys of a well-formed object and reading each key
    back visits the properties in order. *)
Lemma for_in_entries {V A : Type} (o : object V) (f : A -> string -> V -> A)
    (a : A) :
  well_formed o ->
  fold_left
    (fun a k => match get o k with Some v => f a k v | None => a end)
    (keys o) a =
  fold_left (fun a kv => f a (fst kv) (snd kv)) o a.
Proof.
  intros Hwf. unfold keys. rewrite fold_left_map_in.
  apply fold_left_ext_in. intros a' [k v] Hin. cbn [fst snd].
  now rewrite (get_In o k v Hwf Hin).
Qed.

(** Storing [f slug] under every slug of a list, in order. *)
Lemma insert_all_lookup {R : Type} (f : string -> R) (slugs : list string)
    (results : gmap string R) (slug : string) :
  fold_left (fun results s => <[s := f s]> results) slugs results !! slug =
  if in_dec string_dec slug slugs then Some (f slug) else results !! slug.
Proof.
  revert results. induction slugs as [|s slugs IH]; intros results.
  - reflexivity.
  - cbn [fold_left]. rewrite IH.
    destruct (in_dec string_dec slug slugs) as [Hin|Hnin];
      destruct (in_dec string_dec slug (s :: slugs)) as [Hin'|Hnin'];
      try reflexivity.
    + exfalso. apply Hnin'. now right.
    + destruct Hin' as [->|?]; [apply lookup_insert_eq|contradiction].
    + apply lookup_insert_ne. intros ->. apply Hnin'. now left.
Qed.

Context `{Engine} `{Runtime value}.

Lemma node_main_loop_entries (projects : object string) results :
  well_formed projects ->
  Node.main_loop projects results =
  fold_left (fun results s => <[s := Node.process s]> results)
            (List.map snd projects) results.
Proof.
  intros Hwf. unfold Node.main_loop.
  rewrite (for_in_entries projects
             (fun results _ slug => <[slug := Node.process slug]> results)
             results Hwf).
  now rewrite fold_left_map_in.
Qed.

Lemma node_main_loop_lookup (projects : object string) results slug :
  well_formed projects ->
  Node.main_loop projects results !! slug =
  if in_dec string_dec slug (List.map snd projects)
  then Some (Node.process slug) else results !! slug.
Proof.
  intros Hwf. rewrite node_main_loop_entries by assumption.
  apply insert_all_lookup.
Qed.

Lemma venezuela_main_loop_entries (projects : object string) results rows :
  well_formed projects ->
  Venezuela.main_loop projects (results, rows) =
  (fold_left (fun results s => <[s := fst (Venezuela.process "" s)]> results)
             (List.map snd projects) results,
   (rows ++ List.map (fun p => snd (Venezuela.process (fst p) (snd p)))
                     projects)%list).
Proof.
  intros Hwf. unfold Venezuela.main_loop.
  pose (f := fun (st : gmap string Venezuela.result * list Venezuela.csv_row)
                 name slug =>
               let '(results, csvRows) := st in
               let '(entry, row) := Venezuela.process name slug in
               (<[slug := entry]> results, (csvRows ++ [row])%list)).
  transitivity (fold_left (fun st kv => f st (fst kv) (snd kv)) projects
                          (results, rows)).
  { rewrite <- (for_in_entries projects f (results, rows) Hwf).
    apply fold_left_ext_in. intros [r c] name _. unfold f.
    now destruct (get projects name). }
  subst f.
  clear Hwf. revert results rows.
  induction projects as [|[name slug] projects IH]; intros results rows.
  - cbn. now rewrite app_nil_r.
  - cbn [fold_left List.map fst snd]. 
    assert (Hentry : forall n, fst (Venezuela.process n slug)
                               = fst (Venezuela.process "" slug)).
    { intros n. unfold Venezuela.process.
      now destruct (Venezuela.attempt slug). }
    destruct (Venezuela.process name slug) as [entry row] eqn:E.
    rewrite IH. rewrite <- Hentry with (n := name), E. cbn [fst snd].
    now rewrite <- app_assoc.
Qed.

End MainLoop.

(** ** Two runs of a script *)

Section TwoRuns.
Import Js Defs.
Context `{Engine}.
Variables rt1 rt2 : Runtime value.

Lemma node_average_same_parse data endDateStr :
  @Date_parse _ rt1 (endDateStr ++ "T00:00:00Z") =
  @Date_parse _ rt2 (endDateStr ++ "T00:00:00Z") ->
  @Node.calculateTrailingAverageTvl rt1 data endDateStr =
  @Node.calculateTrailingAverageTvl rt2 data endDateStr.
Proof. unfold Node.calculateTrailingAverageTvl. now intros ->. Qed.

Lemma venezuela_average_same_parse data endDateStr :
  @Date_parse _ rt1 (endDateStr ++ "T00:00:00Z") =
  @Date_parse _ rt2 (endDateStr ++ "T00:00:00Z") ->
  @Venezuela.calculateTrailingAverageTvl rt1 data endDateStr =
  @Venezuela.calculateTrailingAverageTvl rt2 data endDateStr.
Proof. unfold Venezuela.calculateTrailingAverageTvl. now intros ->. Qed.

Lemma fetch_same_payload slug :
  @http_get _ rt1 ("https://api.llama.fi/protocol/" ++ slug) =
  @http_get _ rt2 ("https://api.llama.fi/protocol/" ++ slug) ->
  @fetchProtocolData rt1 slug = @fetchProtocolData rt2 slug.
Proof. unfold fetchProtocolData. now intros ->. Qed.

Hypothesis same_end :
  @Date_parse _ rt1 (METRIC_END_DATE ++ "T00:00:00Z") =
  @Date_parse _ rt2 (METRIC_END_DATE ++ "T00:00:00Z").
Hypothesis same_start :
  @Date_parse _ rt1 (METRIC_START_DATE ++ "T00:00:00Z") =
  @Date_parse _ rt2 (METRIC_START_DATE ++ "T00:00:00Z").

Lemma node_unchecked_average_same_parse body endDateStr :
  @Date_parse _ rt1 (endDateStr ++ "T00:00:00Z") =
  @Date_parse _ rt2 (endDateStr ++ "T00:00:00Z") ->
  @Node.Unchecked.calculateTrailingAverageTvl _ rt1 body endDateStr =
  @Node.Unchecked.calculateTrailingAverageTvl _ rt2 body endDateStr.
Proof. unfold Node.Unchecked.calculateTrailingAverageTvl. now intros ->. Qed.

Lemma venezuela_unchecked_average_same_parse body endDateStr :
  @Date_parse _ rt1 (endDateStr ++ "T00:00:00Z") =
  @Date_parse _ rt2 (endDateStr ++ "T00:00:00Z") ->
  @Venezuela.Unchecked.calculateTrailingAverageTvl _ rt1 body endDateStr =
  @Venezuela.Unchecked.calculateTrailingAverageTvl _ rt2 body endDateStr.
Proof.
  unfold Venezuela.Unchecked.calculateTrailingAverageTvl. now intros ->.
Qed.

Lemma node_attempt_same slug :
  @http_get _ rt1 ("https://api.llama.fi/protocol/" ++ slug) =
  @http_get _ rt2 ("https://api.llama.fi/protocol/" ++ slug) ->
  @Node.attempt _ rt1 slug = @Node.attempt _ rt2 slug.
Proof.
  intros Hget. unfold Node.attempt. rewrite (fetch_same_payload slug Hget).
  destruct (@fetchProtocolData rt2 slug) as [protocolData|]; [|reflexivity].
  cbn [bind].
  now rewrite !node_unchecked_average_same_parse by assumption.
Qed.

Lemma venezuela_attempt_same slug :
  @http_get _ rt1 ("https://api.llama.fi/protocol/" ++ slug) =
  @http_get _ rt2 ("https://api.llama.fi/protocol/" ++ slug) ->
  @Venezuela.attempt _ rt1 slug = @Venezuela.attempt _ rt2 slug.
Proof.
  intros Hget. unfold Venezuela.attempt.
  rewrite (fetch_same_payload slug Hget).
  destruct (@fetchProtocolData rt2 slug) as [protocolData|]; [|reflexivity].
  cbn [bind].
  now rewrite !venezuela_unchecked_average_same_parse by assumption.
Qed.

Lemma node_process_same slug :
  @http_get _ rt1 ("https://api.llama.fi/protocol/" ++ slug) =
  @http_get _ rt2 ("https://api.llama.fi/protocol/" ++ slug) ->
  @Node.process _ rt1 slug = @Node.process _ rt2 slug.
Proof.
  intros Hget. unfold Node.process. now rewrite (node_attempt_same slug Hget).
Qed.

Lemma venezuela_process_same name slug :
  @http_get _ rt1 ("https://api.llama.fi/protocol/" ++ slug) =
  @http_get _ rt2 ("https://api.llama.fi/protocol/" ++ slug) ->
  @Venezuela.process _ rt1 name slug = @Venezuela.process _ rt2 name slug.
Proof.
  intros Hget. unfold Venezuela.process.
  now rewrite (venezuela_attempt_same slug Hget).
Qed.

(** C1 (determinism).  Two runs that are given the same payloads for the
    projects' URLs and the same configuration (the projects, the two
    metric dates and what they parse to) produce the same results, in
    both scripts, whatever else differs between the two hosts; and the
    trailing average is a function of the response and of the date the
    end-date string denotes.  [getTvlOnDate] does not use the host at
    all. *)
Theorem runs_are_deterministic (projects : object string)
    (results : gmap string Node.result)
    (state : gmap string Venezuela.result * list Venezuela.csv_row) :
  (forall name slug, In (name, slug) projects ->
     @http_get _ rt1 ("https://api.llama.fi/protocol/" ++ slug) =
     @http_get _ rt2 ("https://api.llama.fi/protocol/" ++ slug)) ->
  @Node.main_loop _ rt1 projects results =
  @Node.main_loop _ rt2 projects results
  /\ @Venezuela.main_loop _ rt1 projects state =
     @Venezuela.main_loop _ rt2 projects state
  /\ (forall data endDateStr,
        @Date_parse _ rt1 (endDateStr ++ "T00:00:00Z") =
        @Date_parse _ rt2 (endDateStr ++ "T00:00:00Z") ->
        @Node.calculateTrailingAverageTvl rt1 data endDateStr =
        @Node.calculateTrailingAverageTvl rt2 data endDateStr).
Proof.
  intros Hpayload. split; [|split].
  - unfold Node.main_loop. apply fold_left_ext_in. intros r name _.
    destruct (get projects name) as [slug|] eqn:E; [|reflexivity].
    rewrite node_process_same; [reflexivity|].
    eapply Hpayload, get_Some_In, E.
  - unfold Venezuela.main_loop. apply fold_left_ext_in.
    intros [r rows] name _.
    destruct (get projects name) as [slug|] eqn:E; [|reflexivity].
    rewrite venezuela_process_same; [reflexivity|].
    eapply Hpayload, get_Some_In, E.
  - intros data endDateStr. apply node_average_same_parse.
Qed.

End TwoRuns.

(** The theorem on two hosts that differ only in a payload no project
    asks for. *)
Lemma runs_are_deterministic_witness :
  @Node.main_loop Host.engine Examples.host Examples.three_projects ∅ =
  @Node.main_loop Host.engine Examples.mirror Examples.three_projects ∅.
Proof.
  refine (proj1 (runs_are_deterministic Examples.host Examples.mirror
                   eq_refl eq_refl Examples.three_projects ∅ (∅, []) _)).
  intros name slug Hin.
  repeat (destruct Hin as [Heq|Hin];
          [injection Heq as <- <-; vm_compute; reflexivity|]).
  destruct Hin.
Defined.

(** ** Failure of one project *)

Section FailureIsolation.
Import Js Defs.

Lemma node_process_throw `{Engine} `{Runtime value} slug message :
  Node.attempt slug = Throw message ->
  Node.process slug = Node.Message "Error processing project".
Proof. unfold Node.process. now intros ->. Qed.

Lemma venezuela_process_throw `{Engine} `{Runtime value} name slug message :
  Venezuela.attempt slug = Throw message ->
  Venezuela.process name slug =
  (Venezuela.Message "Error processing project", Venezuela.ErrorRow name).
Proof. unfold Venezuela.process. now intros ->. Qed.

(** The [try] block throws when fetching throws, or when one of the two
    trailing averages throws on the fetched body. *)
Lemma node_attempt_throws_iff `{Engine} `{Runtime value} slug message :
  Node.attempt slug = Throw message <->
  fetchProtocolData slug = Throw message
  \/ exists protocolData,
       fetchProtocolData slug = Normal protocolData
       /\ (Node.Unchecked.calculateTrailingAverageTvl protocolData
             METRIC_END_DATE = Throw message
           \/ (exists t_end,
                 Node.Unchecked.calculateTrailingAverageTvl protocolData
                   METRIC_END_DATE = Normal t_end)
              /\ Node.Unchecked.calculateTrailingAverageTvl protocolData
                   METRIC_START_DATE = Throw message).
Proof.
  unfold Node.attempt.
  destruct (fetchProtocolData slug) as [protocolData|error]; cbn [bind].
  - destruct (Node.Unchecked.calculateTrailingAverageTvl protocolData
                METRIC_END_DATE) as [t_end|error] eqn:Eend; cbn [bind].
    + destruct (Node.Unchecked.calculateTrailingAverageTvl protocolData
                  METRIC_START_DATE) as [t_start|error] eqn:Estart;
        cbn [bind]; split.
      * intros Habs. discriminate Habs.
      * intros [Habs|(body & [= <-] & [Habs|[_ Habs]])];
          [discriminate Habs|rewrite Habs in Eend|rewrite Habs in Estart];
          discriminate.
      * intros [= ->]. right. exists protocolData. split; [reflexivity|].
        right. split; [now exists t_end|exact Estart].
      * intros [Habs|(body & [= <-] & [Habs|[_ Habs]])];
          [discriminate Habs|rewrite Habs in Eend; discriminate|].
        rewrite Habs in Estart. now injection Estart as ->.
    + split.
      * intros [= ->]. right. exists protocolData. split; [reflexivity|].
        left. exact Eend.
      * intros [Habs|(body & [= <-] & [Habs|[[t_end Habs] _]])];
          [discriminate Habs| |rewrite Habs in Eend; discriminate].
        rewrite Habs in Eend. now injection Eend as ->.
  - split.
    + intros [= ->]. now left.
    + intros [[= ->]|(body & Habs & _)]; [reflexivity|discriminate Habs].
Qed.

Lemma venezuela_attempt_throws_iff `{Engine} `{Runtime value} slug message :
  Venezuela.attempt slug = Throw message <->
  fetchProtocolData slug = Throw message
  \/ exists protocolData,
       fetchProtocolData slug = Normal protocolData
       /\ (Venezuela.Unchecked.calculateTrailingAverageTvl protocolData
             METRIC_END_DATE = Throw message
           \/ (exists t_end,
                 Venezuela.Unchecked.calculateTrailingAverageTvl protocolData
                   METRIC_END_DATE = Normal t_end)
              /\ Venezuela.Unchecked.calculateTrailingAverageTvl protocolData
                   METRIC_START_DATE = Throw message).
Proof.
  unfold Venezuela.attempt.
  destruct (fetchProtocolData slug) as [protocolData|error]; cbn [bind].
  - destruct (Venezuela.Unchecked.calculateTrailingAverageTvl protocolData
                METRIC_END_DATE) as [t_end|error] eqn:Eend; cbn [bind].
    + destruct (Venezuela.Unchecked.calculateTrailingAverageTvl protocolData
                  METRIC_START_DATE) as [t_start|error] eqn:Estart;
        cbn [bind]; split.
      * intros Habs. discriminate Habs.
      * intros [Habs|(body & [= <-] & [Habs|[_ Habs]])];
          [discriminate Habs|rewrite Habs in Eend|rewrite Habs in Estart];
          discriminate.
      * intros [= ->]. right. exists protocolData. split; [reflexivity|].
        right. split; [now exists t_end|exact Estart].
      * intros [Habs|(body & [= <-] & [Habs|[_ Habs]])];
          [discriminate Habs|rewrite Habs in Eend; discriminate|].
        rewrite Habs in Estart. now injection Estart as ->.
    + split.
      * intros [= ->]. right. exists protocolData. split; [reflexivity|].
        left. exact Eend.
      * intros [Habs|(body & [= <-] & [Habs|[[t_end Habs] _]])];
          [discriminate Habs| |rewrite Habs in Eend; discriminate].
        rewrite Habs in Eend. now injection Eend as ->.
  - split.
    + intros [= ->]. now left.
    + intros [[= ->]|(body & Habs & _)]; [reflexivity|discriminate Habs].
Qed.

(** C10 (per-project failure isolation).  Take a run [rt1] and a run
    [rt2] that differs from it at most in what the request for the
    project [bad] yields.  For every well-formed object of projects:
    whenever the [try] block of [bad] throws in the second run, be it in
    fetching or in processing the fetched body (the two trailing
    averages), that run stores the string "Error processing project"
    under [bad], and the error line in the Venezuela revision; every
    project of the batch still gets its entry (and its CSV line); and the
    entries of all other slugs are those of the first run. *)
Theorem project_failure_is_isolated `{Engine} (rt1 rt2 : Runtime value)
    (projects : object string) (bad : string)
    (results : gmap string Node.result)
    (results' : gmap string Venezuela.result)
    (rows : list Venezuela.csv_row) :
  well_formed projects ->
  @Date_parse _ rt1 (METRIC_END_DATE ++ "T00:00:00Z") =
  @Date_parse _ rt2 (METRIC_END_DATE ++ "T00:00:00Z") ->
  @Date_parse _ rt1 (METRIC_START_DATE ++ "T00:00:00Z") =
  @Date_parse _ rt2 (METRIC_START_DATE ++ "T00:00:00Z") ->
  (forall name slug, In (name, slug) projects -> slug <> bad ->
     @http_get _ rt1 ("https://api.llama.fi/protocol/" ++ slug) =
     @http_get _ rt2 ("https://api.llama.fi/protocol/" ++ slug)) ->
  In bad (List.map snd projects) ->
  let node1 := @Node.main_loop _ rt1 projects results in
  let node2 := @Node.main_loop _ rt2 projects results in
  let venezuela1 := @Venezuela.main_loop _ rt1 projects (results', rows) in
  let venezuela2 := @Venezuela.main_loop _ rt2 projects (results', rows) in
  (forall message,
     @fetchProtocolData rt2 bad = Throw message
     \/ (exists protocolData,
           @fetchProtocolData rt2 bad = Normal protocolData
           /\ (@Node.Unchecked.calculateTrailingAverageTvl _ rt2 protocolData
                 METRIC_END_DATE = Throw message
               \/ (exists t_end,
                     @Node.Unchecked.calculateTrailingAverageTvl _ rt2
                       protocolData METRIC_END_DATE = Normal t_end)
                  /\ @Node.Unchecked.calculateTrailingAverageTvl _ rt2
                       protocolData METRIC_START_DATE = Throw message)) ->
     node2 !! bad = Some (Node.Message "Error processing project"))
  /\ (forall message,
        @fetchProtocolData rt2 bad = Throw message
        \/ (exists protocolData,
              @fetchProtocolData rt2 bad = Normal protocolData
              /\ (@Venezuela.Unchecked.calculateTrailingAverageTvl _ rt2
                    protocolData METRIC_END_DATE = Throw message
                  \/ (exists t_end,
                        @Venezuela.Unchecked.calculateTrailingAverageTvl _ rt2
                          protocolData METRIC_END_DATE = Normal t_end)
                     /\ @Venezuela.Unchecked.calculateTrailingAverageTvl _ rt2
                          protocolData METRIC_START_DATE = Throw message)) ->
        fst venezuela2 !! bad =
          Some (Venezuela.Message "Error processing project")
        /\ forall name, In (name, bad) projects ->
             In (Venezuela.ErrorRow name) (snd venezuela2))
  /\ (forall name slug, In (name, slug) projects ->
        node2 !! slug = Some (@Node.process _ rt2 slug)
        /\ fst venezuela2 !! slug =
           Some (fst (@Venezuela.process _ rt2 name slug)))
  /\ snd venezuela2 =
     (rows ++ List.map (fun p => snd (@Venezuela.process _ rt2 (fst p) (snd p)))
                       projects)%list
  /\ (forall slug, slug <> bad ->
        node2 !! slug = node1 !! slug
        /\ fst venezuela2 !! slug = fst venezuela1 !! slug).
Proof.
  intros Hwf Hend Hstart Hsame Hbad node1 node2 venezuela1 venezuela2.
  subst node1 node2 venezuela1 venezuela2.
  rewrite !venezuela_main_loop_entries by assumption. cbn [fst snd].
  assert (Hname : forall rt name slug,
            fst (@Venezuela.process _ rt name slug)
            = fst (@Venezuela.process _ rt "" slug)).
  { intros rt name slug. unfold Venezuela.process.
    now destruct (@Venezuela.attempt _ rt slug). }
  split; [|split; [|split; [|split]]].
  - intros message Hthrow.
    apply (@node_attempt_throws_iff _ rt2) in Hthrow.
    rewrite node_main_loop_lookup by assumption.
    destruct (in_dec string_dec bad (List.map snd projects)); [|contradiction].
    now rewrite (@node_process_throw _ rt2 bad message).
  - intros message Hthrow.
    apply (@venezuela_attempt_throws_iff _ rt2) in Hthrow. split.
    + rewrite insert_all_lookup.
      destruct (in_dec string_dec bad (List.map snd projects));
        [|contradiction].
      now rewrite (@venezuela_process_throw _ rt2 "" bad message).
    + intros name Hin. apply in_or_app. right.
      apply in_map_iff. exists (name, bad). cbn [fst snd].
      split; [|exact Hin].
      now rewrite (@venezuela_process_throw _ rt2 name bad message).
  - intros name slug Hin. split.
    + rewrite node_main_loop_lookup by assumption.
      destruct (in_dec string_dec slug (List.map snd projects)) as [|Hnin];
        [reflexivity|].
      exfalso. apply Hnin. apply in_map_iff. now exists (name, slug).
    + rewrite insert_all_lookup.
      destruct (in_dec string_dec slug (List.map snd projects)) as [|Hnin].
      * now rewrite (Hname rt2 name slug).
      * exfalso. apply Hnin. apply in_map_iff. now exists (name, slug).
  - reflexivity.
  - intros slug Hne. split.
    + rewrite !node_main_loop_lookup by assumption.
      destruct (in_dec string_dec slug (List.map snd projects)) as [Hin|];
        [|reflexivity].
      apply in_map_iff in Hin as ([name slug'] & Hslug & Hin).
      cbn [snd] in Hslug. subst slug'.
      f_equal. symmetry. apply node_process_same; eauto.
    + rewrite !insert_all_lookup.
      destruct (in_dec string_dec slug (List.map snd projects)) as [Hin|];
        [|reflexivity].
      apply in_map_iff in Hin as ([name slug'] & Hslug & Hin).
      cbn [snd] in Hslug. subst slug'.
      f_equal. f_equal. symmetry. apply venezuela_process_same; eauto.
Qed.

(** The theorem on three projects, the second of which fails in the
    second run: once because its request fails, once because the request
    is answered with [{"chainTvls":{"Base":{}}}], on which the first
    trailing average throws a TypeError. *)
Lemma project_failure_is_isolated_witness :
  (@Node.main_loop Host.engine Examples.failing_host Examples.three_projects ∅
     !! "superform" = Some (Node.Message "Error processing project")
   /\ @Node.main_loop Host.engine Examples.failing_host
        Examples.three_projects ∅ !! "avantis" =
      @Node.main_loop Host.engine Examples.host Examples.three_projects ∅
        !! "avantis")
  /\ (@Node.main_loop Host.engine Examples.misshapen_host
        Examples.three_projects ∅ !! "superform" =
        Some (Node.Message "Error processing project")
      /\ @Node.main_loop Host.engine Examples.misshapen_host
           Examples.three_projects ∅ !! "avantis" =
         @Node.main_loop Host.engine Examples.host Examples.three_projects ∅
           !! "avantis").
Proof.
  assert (Hwf : well_formed Examples.three_projects).
  { unfold well_formed. cbn. repeat constructor; cbn; intuition congruence. }
  split.
  - destruct (@project_failure_is_isolated Host.engine Examples.host
                Examples.failing_host Examples.three_projects "superform"
                ∅ ∅ [] Hwf eq_refl eq_refl)
      as (Hbad & _ & _ & _ & Hothers).
    + intros name slug Hin Hne.
      repeat (destruct Hin as [Heq|Hin];
              [injection Heq as <- <-;
               first [contradiction | vm_compute; reflexivity]|]).
      destruct Hin.
    + right. now left.
    + split; [|apply Hothers; discriminate].
      apply (Hbad "request failed"). left. vm_compute. reflexivity.
  - destruct (@project_failure_is_isolated Host.engine Examples.host
                Examples.misshapen_host Examples.three_projects "superform"
                ∅ ∅ [] Hwf eq_refl eq_refl)
      as (Hbad & _ & _ & _ & Hothers).
    + intros name slug Hin Hne.
      repeat (destruct Hin as [Heq|Hin];
              [injection Heq as <- <-;
               first [contradiction | vm_compute; reflexivity]|]).
      destruct Hin.
    + right. now left.
    + split; [|apply Hothers; discriminate].
      apply (Hbad "TypeError"). right. exists Examples.no_tvl_array.
      split; [vm_compute; reflexivity|].
      left. vm_compute. reflexivity.
Defined.

End FailureIsolation.

(** ** No sample in the window *)

Section ZeroSamples.
Import Js Defs Samples.

Lemma retained_nil `{Runtime value} data endDateStr :
  (forall date, In date (window_dates endDateStr) ->
     contributions venezuela_counts data date = []) ->
  retained data endDateStr = [].
Proof.
  unfold retained. induction (window_dates endDateStr) as [|d ds IH].
  - reflexivity.
  - intros Hnone. cbn [flat_map]. rewrite (Hnone d) by now left.
    apply IH. intros date Hin. apply Hnone. now right.
Qed.

Lemma node_average_no_sample `{Runtime value} data endDateStr :
  (forall date, In date (window_dates endDateStr) ->
     contributions node_counts data date = []) ->
  Node.calculateTrailingAverageTvl data endDateStr = 0%float.
Proof.
  intros Hnone. rewrite node_average.
  rewrite (map_ext_in (Node.getTvlOnDate data) (fun _ => 0%float)).
  - reflexivity.
  - intros date Hin. rewrite node_getTvlOnDate_sum.
    now rewrite (Hnone date Hin).
Qed.

Lemma venezuela_average_no_sample `{Runtime value} data
    endDateStr :
  (forall date, In date (window_dates endDateStr) ->
     contributions venezuela_counts data date = []) ->
  Venezuela.calculateTrailingAverageTvl data endDateStr = 0%float.
Proof.
  intros Hnone. rewrite venezuela_average. now rewrite retained_nil.
Qed.

(** C2, as the code has it.  When no counted chain has a data point on
    any day of the trailing window, [calculateTrailingAverageTvl] does
    not fail: the Venezuela revision takes its [nonNullDays > 0 ? ... : 0]
    branch and returns [0], and [src/node/index.ts] returns [0 / 7],
    which is [0]. *)
Theorem no_sample_average_is_zero `{Runtime value}
    (data : DefiLlamaApiResponse) (endDateStr : string) :
  (forall date, In date (window_dates endDateStr) ->
     contributions venezuela_counts data date = []) ->
  retained data endDateStr = []
  /\ Venezuela.calculateTrailingAverageTvl data endDateStr = 0%float
  /\ ((forall date, In date (window_dates endDateStr) ->
         contributions node_counts data date = []) ->
      Node.calculateTrailingAverageTvl data endDateStr = 0%float).
Proof.
  intros Hnone. split; [now apply retained_nil|]. split.
  - now apply venezuela_average_no_sample.
  - apply node_average_no_sample.
Qed.

(** The theorem at a response without any sample in the window. *)
Lemma no_sample_average_is_zero_witness :
  @retained Examples.host Examples.no_samples "2025-06-12" = []
  /\ @Venezuela.calculateTrailingAverageTvl Examples.host Examples.no_samples
       "2025-06-12" = 0%float
  /\ @Node.calculateTrailingAverageTvl Examples.host Examples.no_samples
       "2025-06-12" = 0%float.
Proof.
  destruct (@no_sample_average_is_zero Examples.host Examples.no_samples
              "2025-06-12") as (Hretained & Hvenezuela & Hnode).
  - intros date Hin. vm_compute in Hin.
    repeat (destruct Hin as [<-|Hin]; [vm_compute; reflexivity|]).
    destruct Hin.
  - split; [exact Hretained|split; [exact Hvenezuela|]].
    apply Hnode. intros date Hin. vm_compute in Hin.
    repeat (destruct Hin as [<-|Hin]; [vm_compute; reflexivity|]).
    destruct Hin.
Defined.

(** C2, as stated, fails: on a response with no retained sample in the
    window both scripts return the number [0], and [main] stores a
    difference of [0] for the project instead of reporting a failure. *)
Lemma zero_samples_give_zero_not_failure :
  @retained Examples.host Examples.no_samples METRIC_END_DATE = []
  /\ @Node.calculateTrailingAverageTvl Examples.host Examples.no_samples
       METRIC_END_DATE = 0%float
  /\ @Venezuela.calculateTrailingAverageTvl Examples.host Examples.no_samples
       METRIC_END_DATE = 0%float
  /\ @Node.process Host.engine Examples.host "superform" =
     Node.Difference 0%float
  /\ fst (@Venezuela.process Host.engine Examples.host
            "SuperForm" "superform") =
     Venezuela.Summary
       {| Venezuela.start := 0; Venezuela.end_ := 0;
          Venezuela.difference := 0 |}.
Proof. vm_compute. repeat split. Qed.

End ZeroSamples.

(** ** The mean *)

Section Mean.
Import Js Defs Samples Examples.

(** C3 fails on [src/node/index.ts]: with data on two of the seven days
    (1400 and 700), the script divides their sum by 7 and returns 300,
    where the Venezuela revision returns the mean of the two retained
    values, 1050. *)
Theorem node_average_counts_missing_days_as_zero :
  @retained host two_days "2025-06-12" = [700%float; 1400%float]
  /\ @Venezuela.calculateTrailingAverageTvl host two_days "2025-06-12" =
     ((700 + 1400) / 2)%float
  /\ @Node.calculateTrailingAverageTvl host two_days "2025-06-12" =
     ((700 + 1400) / 7)%float
  /\ ((700 + 1400) / 7 =? (700 + 1400) / 2)%float = false.
Proof. vm_compute. repeat split. Qed.

End Mean.

(** ** Binary64 arithmetic against exact arithmetic *)

Section Exactness.
Import Js Defs Samples.

Lemma representsb_spec x q : representsb x q = true <-> represents x q.
Proof.
  unfold representsb, represents. split.
  - destruct (exactQ x) as [q0|]; [|discriminate].
    intros Heq. exists q0. split; [reflexivity|]. now apply Qeq_bool_iff.
  - intros (q0 & -> & Heq). now apply Qeq_bool_iff.
Qed.

Lemma represents_Qeq x q q' : (q == q')%Q -> represents x q -> represents x q'.
Proof.
  intros Heq (q0 & Hx & Hq0). exists q0. split; [assumption|].
  now rewrite Hq0.
Qed.

Lemma represents_exact_or_0 x q : represents x q -> (exact_or_0 x == q)%Q.
Proof. intros (q0 & Hx & Hq0). unfold exact_or_0. now rewrite Hx. Qed.

Lemma Qsum_from_Qeq values a a' :
  (a == a')%Q -> (fold_left Qplus values a == fold_left Qplus values a')%Q.
Proof.
  revert a a'. induction values as [|v values IH]; intros a a' Heq; simpl.
  - assumption.
  - apply IH. now rewrite Heq.
Qed.

(** When every addition is exact, the binary64 sum has the exact sum as
    its value. *)
Lemma additions_exact_sound values : forall acc a,
  additions_exact acc values = true ->
  represents acc a ->
  represents (fold_left PrimFloat.add values acc)
             (fold_left Qplus (List.map exact_or_0 values) a).
Proof.
  induction values as [|v values IH]; intros acc a Hexact Hacc.
  - exact Hacc.
  - cbn [additions_exact] in Hexact.
    destruct Hacc as (a0 & Hacc & Ha0). rewrite Hacc in Hexact.
    destruct (exactQ v) as [b|] eqn:Hv; [|discriminate].
    apply andb_prop in Hexact as [Hstep Hrest].
    apply representsb_spec in Hstep.
    cbn [List.map fold_left]. apply IH; [assumption|].
    apply represents_Qeq with (q := (a0 + b)%Q); [|assumption].
    unfold exact_or_0. rewrite Hv. now rewrite Ha0.
Qed.

Lemma division_exact_sound x y a b :
  division_exact x y = true ->
  represents x a -> represents y b -> represents (x / y)%float (a / b)%Q.
Proof.
  unfold division_exact.
  intros Hexact (a0 & Hx & Ha0) (b0 & Hy & Hb0). rewrite Hx, Hy in Hexact.
  apply andb_prop in Hexact as [_ Hdiv]. apply representsb_spec in Hdiv.
  apply represents_Qeq with (q := (a0 / b0)%Q); [|assumption].
  now rewrite Ha0, Hb0.
Qed.

Lemma subtraction_exact_sound x y a b :
  subtraction_exact x y = true ->
  represents x a -> represents y b -> represents (x - y)%float (a - b)%Q.
Proof.
  unfold subtraction_exact.
  intros Hexact (a0 & Hx & Ha0) (b0 & Hy & Hb0). rewrite Hx, Hy in Hexact.
  apply representsb_spec in Hexact.
  apply represents_Qeq with (q := (a0 - b0)%Q); [|assumption].
  now rewrite Ha0, Hb0.
Qed.

Lemma represents_zero : represents 0%float 0%Q.
Proof. exists 0%Q. split; reflexivity. Qed.

Lemma represents_seven : represents 7%float 7%Q.
Proof. eexists. split; [vm_compute; reflexivity|reflexivity]. Qed.

Lemma node_average_exact `{Runtime value} data endDateStr :
  let samples :=
    List.map (Node.getTvlOnDate data) (window_dates endDateStr) in
  additions_exact 0%float samples = true ->
  division_exact (sum samples) 7%float = true ->
  represents (Node.calculateTrailingAverageTvl data endDateStr)
             (Qsum (List.map exact_or_0 samples) / 7)%Q.
Proof.
  intros samples Hadd Hdiv. rewrite node_average. fold samples.
  apply division_exact_sound; [assumption| |exact represents_seven].
  apply additions_exact_sound; [assumption|exact represents_zero].
Qed.

Lemma represents_count (k : nat) :
  (1 <= k <= 7)%nat ->
  represents (of_Z (Z.of_nat k)) (inject_Z (Z.of_nat k)).
Proof.
  intros [Hlo Hhi].
  do 8 (destruct k as [|k];
        [first [lia | eexists; split; [vm_compute; reflexivity|reflexivity]]|]).
  lia.
Qed.

(** The Venezuela revision: the same, with the number of retained days as
    the divisor. *)
Lemma venezuela_average_exact `{Runtime value} data endDateStr :
  let samples := retained data endDateStr in
  let count := Z.of_nat (length samples) in
  samples <> [] ->
  additions_exact 0%float samples = true ->
  division_exact (sum samples) (of_Z count) = true ->
  represents (Venezuela.calculateTrailingAverageTvl data endDateStr)
             (Qsum (List.map exact_or_0 samples) / inject_Z count)%Q.
Proof.
  intros samples count Hne Hadd Hdiv. rewrite venezuela_average.
  pose proof (retained_length data endDateStr) as Hlen.
  fold samples in Hlen |- *. subst count.
  destruct samples as [|v vs] eqn:E; [contradiction|].
  apply division_exact_sound; [assumption| |].
  - apply additions_exact_sound; [assumption|exact represents_zero].
  - apply represents_count. cbn [length] in *. lia.
Qed.

(** C4, as the code has it.  The scripts compute in binary64.  In
    [src/node/index.ts], whenever the additions of the seven daily totals
    and the division by 7 are exact for both windows, and so is the final
    subtraction, the two averages and the stored difference have the
    exact rational results as their values. *)
Theorem node_arithmetic_exact_when_operations_are
    `{Runtime value} (protocolData : DefiLlamaApiResponse) :
  let samples_end :=
    List.map (Node.getTvlOnDate protocolData) (window_dates METRIC_END_DATE) in
  let samples_start :=
    List.map (Node.getTvlOnDate protocolData)
             (window_dates METRIC_START_DATE) in
  let t_end := Node.calculateTrailingAverageTvl protocolData METRIC_END_DATE in
  let t_start :=
    Node.calculateTrailingAverageTvl protocolData METRIC_START_DATE in
  additions_exact 0%float samples_end = true ->
  division_exact (sum samples_end) 7%float = true ->
  additions_exact 0%float samples_start = true ->
  division_exact (sum samples_start) 7%float = true ->
  subtraction_exact t_end t_start = true ->
  represents t_end (Qsum (List.map exact_or_0 samples_end) / 7)%Q
  /\ represents t_start (Qsum (List.map exact_or_0 samples_start) / 7)%Q
  /\ represents (t_end - t_start)%float
       (Qsum (List.map exact_or_0 samples_end) / 7
        - Qsum (List.map exact_or_0 samples_start) / 7)%Q.
Proof.
  intros samples_end samples_start t_end t_start Hadd_e Hdiv_e Hadd_s Hdiv_s
    Hsub.
  assert (He : represents t_end
                 (Qsum (List.map exact_or_0 samples_end) / 7)%Q)
    by (apply node_average_exact; [exact Hadd_e|exact Hdiv_e]).
  assert (Hs : represents t_start
                 (Qsum (List.map exact_or_0 samples_start) / 7)%Q)
    by (apply node_average_exact; [exact Hadd_s|exact Hdiv_s]).
  split; [exact He|]. split; [exact Hs|].
  apply subtraction_exact_sound; [exact Hsub|exact He|exact Hs].
Qed.

(** The theorem on a week of whole dollars: 49 + 42 + ... + 7 = 196, a
    seventh of which is 28. *)
Lemma node_arithmetic_exact_when_operations_are_witness :
  represents
    (@Node.calculateTrailingAverageTvl Examples.host Examples.whole_week
       METRIC_END_DATE) 28%Q
  /\ represents
       (@Node.calculateTrailingAverageTvl Examples.host Examples.whole_week
          METRIC_END_DATE
        - @Node.calculateTrailingAverageTvl Examples.host Examples.whole_week
            METRIC_START_DATE)%float 28%Q.
Proof.
  destruct (@node_arithmetic_exact_when_operations_are Examples.host
              Examples.whole_week)
    as (Hend & _ & Hdifference);
    try (vm_compute; reflexivity).
  split.
  - eapply represents_Qeq; [|exact Hend]. vm_compute. reflexivity.
  - eapply represents_Qeq; [|exact Hdifference]. vm_compute. reflexivity.
Defined.

(** C4, as stated, fails: with the daily totals 0.1 and 0.2 (the binary64
    numbers nearest to them), already the sum is not the exact sum of
    the two values, and neither script returns a number whose value is
    the exact mean. *)
Lemma binary64_average_is_not_exact :
  let samples :=
    List.map (Node.getTvlOnDate Examples.tenths)
             (@window_dates Examples.host "2025-06-12") in
  let retained := @retained Examples.host Examples.tenths "2025-06-12" in
  retained = [0.1%float; 0.2%float]
  /\ ~ represents (sum samples) (Qsum (List.map exact_or_0 samples))
  /\ ~ represents
         (@Node.calculateTrailingAverageTvl Examples.host Examples.tenths
            "2025-06-12")
         (Qsum (List.map exact_or_0 samples) / 7)%Q
  /\ ~ represents
         (@Venezuela.calculateTrailingAverageTvl Examples.host Examples.tenths
            "2025-06-12")
         (Qsum (List.map exact_or_0 retained) / 2)%Q.
Proof.
  cbv zeta. split; [vm_compute; reflexivity|].
  repeat split; intros Hr; apply representsb_spec in Hr;
    vm_compute in Hr; discriminate Hr.
Qed.

End Exactness.

(** ** The window of the Offset+Duration mode *)

Section WindowFacts.
Import Engine.

Lemma ceil_to_grid_aligned grid t :
  0 < grid -> t mod grid = 0 -> ceil_to_grid grid t = t.
Proof.
  intros Hgrid Hmod. unfold ceil_to_grid.
  rewrite Z_div_zero_opp_full by assumption.
  pose proof (Z.div_mod t grid ltac:(lia)). lia.
Qed.

Lemma ceil_to_grid_unaligned grid t :
  0 < grid -> t mod grid <> 0 -> ceil_to_grid grid t = (t / grid + 1) * grid.
Proof.
  intros Hgrid Hmod. unfold ceil_to_grid.
  rewrite Z_div_nz_opp_full by (assumption || lia). lia.
Qed.

Lemma resolve_start grid anchor cooldown duration :
  0 < grid ->
  start (resolve_offset_duration grid anchor cooldown duration) =
  ceil_to_grid grid (anchor + cooldown).
Proof.
  intros Hgrid. unfold resolve_offset_duration. cbn [start].
  destruct (Z.eqb_spec ((anchor + cooldown) mod grid) 0) as [Hmod|Hmod].
  - now rewrite ceil_to_grid_aligned.
  - now rewrite ceil_to_grid_unaligned.
Qed.

Lemma ceil_to_grid_spec grid t :
  0 < grid ->
  ceil_to_grid grid t mod grid = 0
  /\ t <= ceil_to_grid grid t < t + grid
  /\ (forall boundary, boundary mod grid = 0 -> t <= boundary ->
        ceil_to_grid grid t <= boundary).
Proof.
  intros Hgrid.
  assert (Hmul : ceil_to_grid grid t mod grid = 0)
    by (unfold ceil_to_grid; apply Z_mod_mult).
  pose proof (Z.div_mod t grid ltac:(lia)) as Ht.
  pose proof (Z.mod_pos_bound t grid Hgrid) as Hbound.
  assert (Hrange : t <= ceil_to_grid grid t < t + grid).
  { destruct (Z.eq_dec (t mod grid) 0) as [Hmod|Hmod].
    - rewrite ceil_to_grid_aligned by assumption. lia.
    - rewrite ceil_to_grid_unaligned by assumption. lia. }
  repeat split; try assumption; try lia.
  intros boundary Hb Hle.
  apply Z.mod_divide in Hb; [|lia]. destruct Hb as [k ->].
  apply Z.mod_divide in Hmul; [|lia]. destruct Hmul as [c Hc].
  rewrite Hc in *.
  assert (Hck : c <= k)
    by (apply Z.lt_succ_r, (Z.mul_lt_mono_pos_r grid); lia).
  apply Z.mul_le_mono_nonneg_r; lia.
Qed.

(** C5 (window correctness, Offset+Duration).  With a positive grid and
    a positive duration the resolved window is
    [[ceil_to_grid (T + C), ceil_to_grid (T + C) + D)]: its start is the
    least grid boundary not before [T + C] (so [T + C] itself when that is
    aligned), its end is [D] later, and the inclusion rule is half-open,
    a sample at the start being kept and a sample at the end dropped. *)
Theorem offset_duration_window (grid T C D : Z) :
  0 < grid -> 0 < D ->
  let w := resolve_offset_duration grid T C D in
  start w = ceil_to_grid grid (T + C)
  /\ end_ w = ceil_to_grid grid (T + C) + D
  /\ start w mod grid = 0
  /\ T + C <= start w < T + C + grid
  /\ (forall boundary, boundary mod grid = 0 -> T + C <= boundary ->
        start w <= boundary)
  /\ ((T + C) mod grid = 0 -> start w = T + C)
  /\ (forall timestamp,
        in_window w timestamp = true <-> start w <= timestamp < end_ w)
  /\ in_window w (start w) = true
  /\ in_window w (end_ w) = false
  /\ (forall (V : Type) (v v' : V),
        window_filter w [(start w, v); (end_ w, v')] = [(start w, v)]).
Proof.
  intros Hgrid HD w.
  assert (Hstart : start w = ceil_to_grid grid (T + C))
    by now apply resolve_start.
  assert (Hend : end_ w = start w + D) by reflexivity.
  destruct (ceil_to_grid_spec grid (T + C) Hgrid) as (Hmod & Hrange & Hleast).
  assert (Hin : forall timestamp,
            in_window w timestamp = true <-> start w <= timestamp < end_ w).
  { intros timestamp. unfold in_window.
    rewrite andb_true_iff, Z.leb_le, Z.ltb_lt. reflexivity. }
  assert (Hfirst : in_window w (start w) = true) by (apply Hin; lia).
  assert (Hlast : in_window w (end_ w) = false).
  { destruct (in_window w (end_ w)) eqn:E; [|reflexivity].
    apply Hin in E. lia. }
  split; [exact Hstart|].
  split; [rewrite Hend, Hstart; reflexivity|].
  split; [rewrite Hstart; exact Hmod|].
  split; [rewrite Hstart; exact Hrange|].
  split; [intros boundary Hb Hle; rewrite Hstart; now apply Hleast|].
  split; [intros Haligned; rewrite Hstart; now apply ceil_to_grid_aligned|].
  split; [exact Hin|].
  split; [exact Hfirst|].
  split; [exact Hlast|].
  clearbody w. intros V v v'. unfold window_filter. cbn [List.filter fst].
  now rewrite Hfirst, Hlast.
Qed.

(** The theorem for a decision at 17:03:20, a cooldown of 120 minutes
    and a window of 12 hours on a one-minute grid (in seconds). *)
Lemma offset_duration_window_witness :
  let w := resolve_offset_duration 60 1758215000 7200 43200 in
  start w = 1758222240 /\ end_ w = 1758265440
  /\ in_window w 1758222240 = true /\ in_window w 1758265440 = false.
Proof.
  destruct (offset_duration_window 60 1758215000 7200 43200)
    as (Hs & He & _ & _ & _ & _ & _ & Hfirst & Hlast & _); [lia|lia|].
  cbv zeta.
  split; [exact Hs|split; [exact He|split; [exact Hfirst|exact Hlast]]].
Defined.

End WindowFacts.

(** ** Half-up rounding *)

Section RoundingFacts.
Import Engine.
Local Open Scope Q_scope.

Lemma Qfloor_unique (x : Q) (z : Z) :
  inject_Z z <= x -> x < inject_Z (z + 1) -> Qfloor x = z.
Proof.
  intros Hle Hlt.
  pose proof (Qfloor_le x) as Hfl. pose proof (Qlt_floor x) as Hfu.
  assert (H1 : (z < Qfloor x + 1)%Z).
  { rewrite Zlt_Qlt. eapply Qle_lt_trans; eassumption. }
  assert (H2 : (Qfloor x < z + 1)%Z).
  { rewrite Zlt_Qlt. eapply Qle_lt_trans; eassumption. }
  lia.
Qed.

Lemma half_up_nearest (x : Q) :
  x - (1 # 2) < inject_Z (half_up x) /\ inject_Z (half_up x) <= x + (1 # 2).
Proof.
  unfold half_up.
  pose proof (Qfloor_le (x + (1 # 2))) as Hle.
  pose proof (Qlt_floor (x + (1 # 2))) as Hlt.
  rewrite inject_Z_plus in Hlt. change (inject_Z 1) with 1 in Hlt.
  split; [lra|exact Hle].
Qed.

Lemma half_up_tie (x : Q) (n : Z) :
  x == inject_Z n + (1 # 2) -> half_up x = (n + 1)%Z.
Proof.
  intros Hx. unfold half_up. apply Qfloor_unique.
  - rewrite inject_Z_plus. change (inject_Z 1) with 1. lra.
  - rewrite !inject_Z_plus. change (inject_Z 1) with 1. lra.
Qed.

Lemma half_even_tie (x : Q) (n : Z) :
  x == inject_Z n + (1 # 2) -> Z.even n = true -> half_even x = n.
Proof.
  intros Hx Heven. unfold half_even.
  assert (Hfloor : Qfloor x = n).
  { apply Qfloor_unique.
    - lra.
    - rewrite inject_Z_plus. change (inject_Z 1) with 1. lra. }
  rewrite Hfloor.
  assert (Hcmp : (x - inject_Z n ?= 1 # 2) = Eq) by (apply Qeq_alt; lra).
  now rewrite Hcmp, Heven.
Qed.

(** [Math.round], as the Venezuela revision applies it to the values of the
    CSV file, follows the same rule on the exact value. *)
Lemma round_Q_half_up (q : Q) : Js.round_Q q = half_up q.
Proof.
  unfold Js.round_Q, half_up. symmetry.
  pose proof (Qfloor_le q) as Hle. pose proof (Qlt_floor q) as Hlt.
  rewrite inject_Z_plus in Hlt. change (inject_Z 1) with 1 in Hlt.
  pose proof (Qle_ceiling q) as Hce. pose proof (Qceiling_lt q) as Hcl.
  unfold Z.sub in Hcl. rewrite inject_Z_plus, inject_Z_opp in Hcl.
  change (inject_Z 1) with 1 in Hcl.
  assert (Hcases : Qceiling q = Qfloor q \/ Qceiling q = (Qfloor q + 1)%Z).
  { assert ((Qfloor q <= Qceiling q)%Z)
      by (rewrite Zle_Qle; eapply Qle_trans; eassumption).
    assert ((Qceiling q < Qfloor q + 2)%Z).
    { rewrite Zlt_Qlt, inject_Z_plus. change (inject_Z 2) with 2. lra. }
    lia. }
  destruct (Qlt_le_dec (q - inject_Z (Qfloor q)) (inject_Z (Qceiling q) - q))
    as [Hlow|Hhigh].
  - apply Qfloor_unique.
    + lra.
    + rewrite inject_Z_plus. change (inject_Z 1) with 1.
      destruct Hcases as [Heq|Heq]; rewrite Heq in Hlow.
      * lra.
      * rewrite inject_Z_plus in Hlow. change (inject_Z 1) with 1 in Hlow.
        lra.
  - apply Qfloor_unique.
    + destruct Hcases as [Heq|Heq]; rewrite Heq in Hhigh |- *.
      * lra.
      * rewrite inject_Z_plus in Hhigh |- *.
        change (inject_Z 1) with 1 in Hhigh |- *. lra.
    + rewrite inject_Z_plus. change (inject_Z 1) with 1. lra.
Qed.

Lemma Math_round_half_up (x : Js.number) (q : Q) :
  Js.exactQ x = Some q ->
  Js.Math_round x =
  if Qeq_bool (inject_Z (Qfloor q)) q then x
  else if (half_up q =? 0)%Z && PrimFloat.ltb x 0 then (-0)%float
       else Js.of_Z (half_up q).
Proof.
  intros Hx. unfold Js.Math_round. rewrite Hx.
  now rewrite round_Q_half_up.
Qed.

(** The spec's example in binary64: 12.345 times 100 is the number
    1234.5, which [Math.round] takes to 1235. *)
Example Math_round_12_345 :
  (12.345 * 100)%float = 1234.5%float
  /\ Js.Math_round (12.345 * 100)%float = 1235%float.
Proof. split; reflexivity. Qed.

(** C6 (half-up rounding law).  For a non-negative scalar [s] the
    half-up rounder returns [floor (x + 0.5)] for [x = s * 100]: a
    non-negative integer within one half of [x], and at a tie
    [x = n + 0.5] the larger neighbour [n + 1], also when [n] is even and
    rounding to even would give [n].  Half-up of 12.345 is 1235. *)
Theorem half_up_rounding_law (s : Q) :
  0 <= s ->
  let x := s * 100 in
  let r := round s HalfUp in
  r = Qfloor (x + (1 # 2))
  /\ (0 <= r)%Z
  /\ x - (1 # 2) < inject_Z r <= x + (1 # 2)
  /\ (forall n : Z, x == inject_Z n + (1 # 2) ->
        r = (n + 1)%Z
        /\ (Z.even n = true -> half_even x = n /\ half_even x <> r))
  /\ round (12345 # 1000) HalfUp = 1235%Z.
Proof.
  intros Hs x r.
  split; [reflexivity|].
  split.
  { subst r. unfold round. fold x. unfold half_up.
    change 0%Z with (Qfloor 0). apply Qfloor_resp_le. subst x. nra. }
  split; [apply half_up_nearest|].
  split; [|reflexivity].
  intros n Hn.
  assert (Hr : r = (n + 1)%Z) by (apply half_up_tie; exact Hn).
  split; [exact Hr|].
  intros Heven. rewrite (half_even_tie x n Hn Heven). split; [reflexivity|lia].
Qed.

(** The theorem at the scalar 2.125, whose hundredfold 212.5 is a tie
    above an even integer. *)
Lemma half_up_rounding_law_witness :
  round (2125 # 1000) HalfUp = 213%Z
  /\ half_even ((2125 # 1000) * 100) = 212%Z.
Proof.
  destruct (half_up_rounding_law (2125 # 1000)) as (_ & _ & _ & Htie & _);
    [discriminate|].
  destruct (Htie 212%Z) as [Hr Heven]; [reflexivity|].
  split; [exact Hr|]. now apply Heven.
Defined.

End RoundingFacts.

(** ** Which chain keys are counted *)

Section ChainKeys.
Import Js Defs Samples.

Lemma major_superchain_l2s chain :
  has MAJOR_SUPERCHAIN_L2S chain = true ->
  In chain
     [ "BOB"; "Base"; "Ink"; "Lisk"; "Mode"; "Optimism"; "OP Mainnet";
       "Polynomial"; "Soneium"; "Swellchain"; "Unichain"; "World Chain" ].
Proof.
  unfold has, MAJOR_SUPERCHAIN_L2S. intros Hin.
  apply bool_decide_eq_true in Hin.
  apply elem_of_list_to_set in Hin. now apply list_elem_of_In.
Qed.

Lemma major_dash_free chain :
  has MAJOR_SUPERCHAIN_L2S chain = true -> dash_free chain = true.
Proof.
  intros Hin. apply major_superchain_l2s in Hin.
  repeat (destruct Hin as [<-|Hin]; [reflexivity|]). destruct Hin.
Qed.

(** A key without ['-'] is counted by [src/node/index.ts] exactly when it
    is in the list; so is a key with a suffix after a ['-'] when its
    first segment is. *)
Lemma node_counts_bare chain :
  dash_free chain = true ->
  node_counts chain = has MAJOR_SUPERCHAIN_L2S chain.
Proof. intros Hfree. unfold node_counts. now rewrite split_dash_free. Qed.

Lemma node_counts_suffixed bare suffix :
  dash_free bare = true ->
  node_counts (bare ++ String "-" suffix) = has MAJOR_SUPERCHAIN_L2S bare.
Proof. intros Hfree. unfold node_counts. now rewrite split_prefix. Qed.

Lemma venezuela_counts_node_counts chain :
  venezuela_counts chain = true -> node_counts chain = true.
Proof.
  unfold venezuela_counts. intros Hin.
  now rewrite node_counts_bare by now apply major_dash_free.
Qed.

Lemma contribution_In counts (data : DefiLlamaApiResponse) date chain entry
    dayTvl :
  well_formed (chainTvls data) ->
  In (chain, entry) (chainTvls data) ->
  counts chain = true ->
  Array_find (fun d => (Defs.date d =? getTime date / 1000)%float)
             (tvl entry) = Some dayTvl ->
  In (chain, totalLiquidityUSD dayTvl) (contributions counts data date).
Proof.
  intros Hwf Hin Hcounts Hfind. unfold contributions.
  apply in_flat_map. exists chain. split.
  - unfold keys. apply in_map_iff. now exists (chain, entry).
  - unfold chain_contribution, day_entry.
    rewrite Hcounts, (get_In _ _ _ Hwf Hin), Hfind. now left.
Qed.

(** C9 (chain-name prefix matching in [src/node/index.ts]).  A key
    [bare-suffix] is counted when [bare] is in the Superchain list.  In a
    response that has both the key [bare] and the key [bare-suffix], each
    with a data point at the target date, both values are among the
    contributions whose sum is the returned daily total; when these are
    the only two keys, the total is [0 + v + v']. *)
Theorem suffixed_chain_is_added_too (data : DefiLlamaApiResponse)
    (date : Date) (bare suffix : string) (entry entry' : ChainTvl)
    (dayTvl dayTvl' : TvlDataItem) :
  let targetTimestamp := (getTime date / 1000)%float in
  let suffixed := bare ++ String "-" suffix in
  well_formed (chainTvls data) ->
  has MAJOR_SUPERCHAIN_L2S bare = true ->
  In (bare, entry) (chainTvls data) ->
  In (suffixed, entry') (chainTvls data) ->
  Array_find (fun d => (Defs.date d =? targetTimestamp)%float) (tvl entry)
    = Some dayTvl ->
  Array_find (fun d => (Defs.date d =? targetTimestamp)%float) (tvl entry')
    = Some dayTvl' ->
  nth 0 (split "-" suffixed) "" = bare
  /\ node_counts suffixed = true
  /\ Node.getTvlOnDate data date =
     sum (List.map snd (contributions node_counts data date))
  /\ In (bare, totalLiquidityUSD dayTvl) (contributions node_counts data date)
  /\ In (suffixed, totalLiquidityUSD dayTvl')
        (contributions node_counts data date)
  /\ (chainTvls data = [(bare, entry); (suffixed, entry')] ->
      Node.getTvlOnDate data date =
      (0 + totalLiquidityUSD dayTvl + totalLiquidityUSD dayTvl')%float).
Proof.
  intros targetTimestamp suffixed Hwf Hmajor Hbare Hsuffixed Hfind Hfind'.
  pose proof (major_dash_free bare Hmajor) as Hfree.
  assert (Hcounts : node_counts bare = true)
    by now rewrite node_counts_bare.
  assert (Hcounts' : node_counts suffixed = true)
    by (unfold suffixed; now rewrite node_counts_suffixed).
  split; [now apply split_prefix|].
  split; [exact Hcounts'|].
  split; [apply node_getTvlOnDate_sum|].
  split; [now apply contribution_In with (entry := entry)|].
  split; [now apply contribution_In with (entry := entry')|].
  intros Hkeys. rewrite node_getTvlOnDate_sum.
  unfold contributions. fold targetTimestamp.
  replace (keys (chainTvls data)) with [bare; suffixed] by now rewrite Hkeys.
  cbn [flat_map].
  unfold chain_contribution, day_entry.
  rewrite Hcounts, Hcounts'.
  rewrite (get_In _ _ _ Hwf Hbare), (get_In _ _ _ Hwf Hsuffixed).
  now rewrite Hfind, Hfind'.
Qed.

(** The theorem on a response with the keys "Base" and "Base-staking",
    at the last day of the window. *)
Lemma suffixed_chain_is_added_too_witness :
  Node.getTvlOnDate Examples.staking_week Examples.end_date =
  (0 + 70 + 7)%float.
Proof.
  refine (proj2 (proj2 (proj2 (proj2 (proj2
    (suffixed_chain_is_added_too Examples.staking_week Examples.end_date
       "Base" "staking"
       {| tvl := [ Examples.point 6 70; Examples.point 5 70;
                   Examples.point 4 70; Examples.point 3 70;
                   Examples.point 2 70; Examples.point 1 70;
                   Examples.point 0 70 ] |}
       {| tvl := [ Examples.point 6 7; Examples.point 5 7;
                   Examples.point 4 7; Examples.point 3 7;
                   Examples.point 2 7; Examples.point 1 7;
                   Examples.point 0 7 ] |}
       (Examples.point 0 70) (Examples.point 0 7)
       _ _ _ _ _ _))))) _).
  - unfold well_formed. cbn. repeat constructor; cbn; intuition congruence.
  - vm_compute. reflexivity.
  - now left.
  - right. now left.
  - vm_compute. reflexivity.
  - vm_compute. reflexivity.
  - reflexivity.
Defined.

End ChainKeys.

(** ** Two points on the same date *)

Section Duplicates.
Import Js Defs Samples.

Lemma Array_find_first {A : Type} (p : A -> bool) (before : list A) (x : A)
    (after : list A) :
  (forall y, In y before -> p y = false) ->
  p x = true ->
  Array_find p (before ++ x :: after) = Some x.
Proof.
  intros Hbefore Hx. unfold Array_find.
  induction before as [|y before IH]; cbn [app find].
  - now rewrite Hx.
  - rewrite (Hbefore y) by now left. apply IH.
    intros z Hz. apply Hbefore. now right.
Qed.

(** C7, as the code has it.  The scripts do not deduplicate; they read a
    chain's value for a date with [Array.prototype.find].  When the [tvl]
    array of a counted chain holds two entries with the target date, the
    value added to the day's total is that of the first one in array
    order, whatever follows it. *)
Theorem first_entry_of_a_date_is_used (data : DefiLlamaApiResponse)
    (date : Date) (chain : string)
    (before between after : list TvlDataItem) (first later : TvlDataItem)
    (totalTvl : number) (hasData : bool) :
  let targetTimestamp := (getTime date / 1000)%float in
  get (chainTvls data) chain =
    Some {| tvl := before ++ first :: between ++ later :: after |} ->
  (forall d, In d before -> (Defs.date d =? targetTimestamp)%float = false) ->
  (Defs.date first =? targetTimestamp)%float = true ->
  (Defs.date later =? targetTimestamp)%float = true ->
  node_counts chain = true ->
  day_entry data targetTimestamp chain = Some first
  /\ Node.getTvlOnDate_step data targetTimestamp totalTvl chain =
     (totalTvl + totalLiquidityUSD first)%float
  /\ Venezuela.getTvlOnDate_step data targetTimestamp (totalTvl, hasData)
       chain =
     if venezuela_counts chain
     then ((totalTvl + totalLiquidityUSD first)%float, true)
     else (totalTvl, hasData).
Proof.
  intros targetTimestamp Hget Hbefore Hfirst _ Hcounts.
  assert (Hentry : day_entry data targetTimestamp chain = Some first).
  { unfold day_entry. rewrite Hget. cbn [tvl].
    now apply Array_find_first. }
  split; [exact Hentry|]. split.
  - rewrite node_step_contribution. unfold chain_contribution.
    now rewrite Hcounts, Hentry.
  - rewrite venezuela_step_contribution. unfold chain_contribution.
    destruct (venezuela_counts chain); [|reflexivity].
    now rewrite Hentry.
Qed.

(** The theorem on a chain with the values 1 and then 2 on the target
    date. *)
Lemma first_entry_of_a_date_is_used_witness :
  Node.getTvlOnDate_step Examples.duplicated
    (getTime Examples.end_date / 1000)%float 0%float "Base" =
  (0 + 1)%float.
Proof.
  refine (proj1 (proj2
    (first_entry_of_a_date_is_used Examples.duplicated Examples.end_date
       "Base" [Examples.point 1 5] [] [] (Examples.point 0 1)
       (Examples.point 0 2) 0%float false _ _ _ _ _))).
  - reflexivity.
  - intros d [<-|[]]. vm_compute. reflexivity.
  - vm_compute. reflexivity.
  - vm_compute. reflexivity.
  - vm_compute. reflexivity.
Defined.

(** C7, as stated, fails: with the values 1 and then 2 on the same date,
    both scripts use 1, the entry that arrived first, where the claim
    has the later value 2. *)
Lemma later_duplicate_is_not_used :
  List.map totalLiquidityUSD
    (List.filter
       (fun d => (Defs.date d =? getTime Examples.end_date / 1000)%float)
       [ Examples.point 1 5; Examples.point 0 1; Examples.point 0 2 ]) =
  [1%float; 2%float]
  /\ Node.getTvlOnDate Examples.duplicated Examples.end_date = 1%float
  /\ Venezuela.getTvlOnDate Examples.duplicated Examples.end_date =
     Some 1%float
  /\ (1 =? 2)%float = false.
Proof. vm_compute. repeat split. Qed.

End Duplicates.

(** ** The two scripts compared *)

Section TwoScripts.
Import Js Defs Samples.
Context `{Runtime value}.

Lemma contributions_same_counts (data : DefiLlamaApiResponse) date :
  (forall chain, In chain (keys (chainTvls data)) ->
     node_counts chain = venezuela_counts chain) ->
  contributions node_counts data date =
  contributions venezuela_counts data date.
Proof.
  intros Hsame. unfold contributions.
  induction (keys (chainTvls data)) as [|chain chains IH]; [reflexivity|].
  cbn [flat_map]. rewrite IH by (intros c Hc; apply Hsame; now right).
  f_equal. unfold chain_contribution. now rewrite Hsame by now left.
Qed.

Lemma retained_every_day (data : DefiLlamaApiResponse) endDateStr :
  (forall date, In date (window_dates endDateStr) ->
     contributions venezuela_counts data date <> []) ->
  retained data endDateStr =
  List.map (fun date =>
              sum (List.map snd (contributions venezuela_counts data date)))
           (window_dates endDateStr).
Proof.
  unfold retained.
  induction (window_dates endDateStr) as [|d ds IH]; intros Hsome.
  - reflexivity.
  - cbn [flat_map]. rewrite map_cons.
    rewrite IH by (intros date Hin; apply Hsome; now right).
    destruct (contributions venezuela_counts data d) eqn:E; [|reflexivity].
    exfalso. apply (Hsome d); [now left|exact E].
Qed.

(** C8, as the code has it.  The two scripts return the same trailing
    average on a response whose enumerated chain keys are counted alike
    by both (no key is counted only through its first segment) and in
    which every day of the window has data, or no day has. *)
Theorem scripts_agree_on_full_windows (data : DefiLlamaApiResponse)
    (endDateStr : string) :
  (forall chain, In chain (keys (chainTvls data)) ->
     node_counts chain = venezuela_counts chain) ->
  (forall date, In date (window_dates endDateStr) ->
     contributions venezuela_counts data date <> [])
  \/ (forall date, In date (window_dates endDateStr) ->
        contributions venezuela_counts data date = []) ->
  Node.calculateTrailingAverageTvl data endDateStr =
  Venezuela.calculateTrailingAverageTvl data endDateStr.
Proof.
  intros Hsame [Hevery|Hnone].
  - rewrite node_average, venezuela_average, retained_every_day by assumption.
    rewrite (map_ext (Node.getTvlOnDate data)
               (fun date =>
                  sum (List.map snd
                         (contributions venezuela_counts data date)))).
    2:{ intros date. rewrite node_getTvlOnDate_sum.
        now rewrite contributions_same_counts. }
    pose proof (window_dates_length endDateStr) as Hlen.
    destruct (window_dates endDateStr) as [|d0 [|d1 [|d2 [|d3 [|d4 [|d5 [|d6
      [|d7 ds]]]]]]]]; try discriminate Hlen.
    reflexivity.
  - rewrite venezuela_average_no_sample by assumption.
    apply node_average_no_sample. intros date Hin.
    rewrite contributions_same_counts by assumption. now apply Hnone.
Qed.

End TwoScripts.

Section TwoScriptsExamples.
Import Js Defs Samples.

(** The theorem on a full week of a single counted chain. *)
Lemma scripts_agree_on_full_windows_witness :
  @Node.calculateTrailingAverageTvl Examples.host Examples.whole_week
     "2025-06-12" =
  @Venezuela.calculateTrailingAverageTvl Examples.host Examples.whole_week
     "2025-06-12".
Proof.
  apply (@scripts_agree_on_full_windows Examples.host).
  - intros chain Hin. vm_compute in Hin.
    repeat (destruct Hin as [<-|Hin]; [vm_compute; reflexivity|]).
    destruct Hin.
  - left. intros date Hin. vm_compute in Hin.
    repeat (destruct Hin as [<-|Hin]; [vm_compute; discriminate|]).
    destruct Hin.
Defined.

(** C8, as stated, fails: on a full week with the keys "Base" (70 a day)
    and "Base-staking" (7 a day), [src/node/index.ts] counts both keys
    and returns 77, the Venezuela revision counts "Base" only and returns
    70. *)
Lemma scripts_differ_on_suffixed_keys :
  @Node.calculateTrailingAverageTvl Examples.host Examples.staking_week
     "2025-06-12" = 77%float
  /\ @Venezuela.calculateTrailingAverageTvl Examples.host
       Examples.staking_week "2025-06-12" = 70%float
  /\ @Node.calculateTrailingAverageTvl Examples.host Examples.staking_week
       "2025-06-12" <>
     @Venezuela.calculateTrailingAverageTvl Examples.host
       Examples.staking_week "2025-06-12".
Proof.
  split; [vm_compute; reflexivity|]. split; [vm_compute; reflexivity|].
  intros Heq.
  apply (f_equal (fun x => PrimFloat.eqb x 70%float)) in Heq.
  vm_compute in Heq. discriminate Heq.
Qed.

End TwoScriptsExamples.

(** * Further properties of the scripts *)

(** ** An end date that does not parse *)

Section InvalidDate.
Import Js Defs Samples Variations.

(** No number is [===] to NaN. *)
Lemma eqb_nan_r (x : number) : (x =? PrimFloat.nan)%float = false.
Proof.
  rewrite FloatAxioms.eqb_spec. change (Prim2SF nan) with S754_nan.
  unfold SFeqb, SFcompare. now destruct (Prim2SF x).
Qed.

Lemma Array_find_nan (a : list TvlDataItem) :
  Array_find (fun d => (Defs.date d =? getTime None / 1000)%float) a = None.
Proof.
  change (getTime None / 1000)%float with PrimFloat.nan.
  unfold Array_find. induction a as [|d a IH]; [reflexivity|].
  cbn [find]. now rewrite eqb_nan_r.
Qed.

Lemma contributions_invalid_date counts (data : DefiLlamaApiResponse) :
  contributions counts data None = [].
Proof.
  unfold contributions.
  induction (keys (chainTvls data)) as [|chain chains IH]; [reflexivity|].
  cbn [flat_map]. rewrite IH, app_nil_r.
  unfold chain_contribution, day_entry.
  destruct (counts chain); [|reflexivity].
  destruct (get _ chain) as [entry|]; [|reflexivity].
  now rewrite Array_find_nan.
Qed.

Lemma window_dates_invalid `{Runtime value} endDateStr date :
  Date_parse (endDateStr ++ "T00:00:00Z") = None ->
  In date (window_dates endDateStr) -> date = None.
Proof.
  unfold window_dates. intros ->. intros Hin.
  apply in_map_iff in Hin as (i & <- & _). reflexivity.
Qed.

(** X1.  An end-date string that the host cannot parse is not an error:
    the target timestamp is NaN, which no data point's date equals, so
    [getTvlOnDate] finds nothing ([0], and [null] in the Venezuela
    revision) and [calculateTrailingAverageTvl] returns [0] for every
    response. *)
Theorem invalid_end_date_gives_zero `{Runtime value}
    (data : DefiLlamaApiResponse) (endDateStr : string) :
  Date_parse (endDateStr ++ "T00:00:00Z") = None ->
  Node.getTvlOnDate data None = 0%float
  /\ Venezuela.getTvlOnDate data None = None
  /\ Node.calculateTrailingAverageTvl data endDateStr = 0%float
  /\ Venezuela.calculateTrailingAverageTvl data endDateStr = 0%float.
Proof.
  intros Hparse.
  split; [now rewrite node_getTvlOnDate_sum, contributions_invalid_date|].
  split;
    [now rewrite venezuela_getTvlOnDate_sum, contributions_invalid_date|].
  split.
  - apply node_average_no_sample. intros date Hin.
    rewrite (window_dates_invalid endDateStr date Hparse Hin).
    apply contributions_invalid_date.
  - apply venezuela_average_no_sample. intros date Hin.
    rewrite (window_dates_invalid endDateStr date Hparse Hin).
    apply contributions_invalid_date.
Qed.

(** The theorem on a full week of data and an end date in the wrong
    format. *)
Lemma invalid_end_date_gives_zero_witness :
  @Node.calculateTrailingAverageTvl Examples.host Examples.whole_week
     "12 June 2025" = 0%float
  /\ @Venezuela.calculateTrailingAverageTvl Examples.host Examples.whole_week
       "12 June 2025" = 0%float.
Proof.
  destruct (@invalid_end_date_gives_zero Examples.host Examples.whole_week
              "12 June 2025") as (_ & _ & Hnode & Hvenezuela).
  - vm_compute. reflexivity.
  - split; [exact Hnode|exact Hvenezuela].
Defined.

End InvalidDate.

(** ** What the response may contain without effect *)

Section Irrelevant.
Import Js Defs Samples Variations.

Lemma flat_map_ext_in {A B : Type} (f g : A -> list B) (l : list A) :
  (forall x, In x l -> f x = g x) -> flat_map f l = flat_map g l.
Proof.
  induction l as [|x l IH]; intros Hfg; [reflexivity|].
  cbn [flat_map]. rewrite (Hfg x) by now left.
  rewrite IH; [reflexivity|]. intros y Hy. apply Hfg. now right.
Qed.

Lemma flat_map_filter {A B : Type} (p : A -> bool) (f : A -> list B)
    (l : list A) :
  (forall x, p x = false -> f x = []) ->
  flat_map f (List.filter p l) = flat_map f l.
Proof.
  intros Hp. induction l as [|x l IH]; [reflexivity|].
  cbn [List.filter flat_map]. destruct (p x) eqn:E.
  - cbn [flat_map]. now rewrite IH.
  - now rewrite IH, (Hp x E).
Qed.

Lemma get_filter {V : Type} (p : string -> bool) (o : object V) k :
  p k = true -> get (List.filter (fun kv => p (fst kv)) o) k = get o k.
Proof.
  intros Hk. induction o as [|[k' v] o IH]; [reflexivity|].
  cbn [List.filter fst get].
  destruct (String.eqb_spec k' k) as [->|Hne].
  - rewrite Hk. cbn [get]. now rewrite String.eqb_refl.
  - destruct (p k'); [cbn [get]|]; try exact IH.
    destruct (String.eqb_spec k' k); [contradiction|exact IH].
Qed.

Lemma keys_filter {V : Type} (p : string -> bool) (o : object V) :
  keys (List.filter (fun kv => p (fst kv)) o) = List.filter p (keys o).
Proof.
  unfold keys. induction o as [|[k v] o IH]; [reflexivity|].
  cbn [List.filter List.map fst]. destruct (p k); cbn [List.map fst];
    now rewrite IH.
Qed.

Lemma contributions_only_counted counts (data : DefiLlamaApiResponse) date :
  contributions counts (only_counted counts data) date =
  contributions counts data date.
Proof.
  unfold contributions, only_counted. cbn [chainTvls].
  rewrite keys_filter.
  rewrite <- (flat_map_filter counts
                (chain_contribution counts data (getTime date / 1000)%float)).
  2:{ intros chain Hc. unfold chain_contribution. now rewrite Hc. }
  apply flat_map_ext_in. intros chain Hin.
  apply filter_In in Hin as [_ Hc].
  unfold chain_contribution, day_entry. cbn [chainTvls].
  now rewrite get_filter.
Qed.

Lemma retained_ext `{Runtime value}
    (data data' : DefiLlamaApiResponse) endDateStr :
  (forall date, In date (window_dates endDateStr) ->
     contributions venezuela_counts data date =
     contributions venezuela_counts data' date) ->
  retained data endDateStr = retained data' endDateStr.
Proof.
  intros Hsame. unfold retained. apply flat_map_ext_in.
  intros date Hin. now rewrite (Hsame date Hin).
Qed.

Lemma node_average_ext `{Runtime value}
    (data data' : DefiLlamaApiResponse) endDateStr :
  (forall date, In date (window_dates endDateStr) ->
     contributions node_counts data date =
     contributions node_counts data' date) ->
  Node.calculateTrailingAverageTvl data endDateStr =
  Node.calculateTrailingAverageTvl data' endDateStr.
Proof.
  intros Hsame. rewrite !node_average. f_equal. f_equal.
  apply map_ext_in. intros date Hin.
  now rewrite !node_getTvlOnDate_sum, (Hsame date Hin).
Qed.

Lemma venezuela_average_ext `{Runtime value}
    (data data' : DefiLlamaApiResponse) endDateStr :
  (forall date, In date (window_dates endDateStr) ->
     contributions venezuela_counts data date =
     contributions venezuela_counts data' date) ->
  Venezuela.calculateTrailingAverageTvl data endDateStr =
  Venezuela.calculateTrailingAverageTvl data' endDateStr.
Proof.
  intros Hsame. rewrite !venezuela_average.
  now rewrite (retained_ext data data' endDateStr Hsame).
Qed.

(** X2.  Chains that a script does not count never influence its
    result: deleting from the response every chain key that is not counted
    (for [src/node/index.ts], whose first segment is not in the Superchain
    list; for the Venezuela revision, that is not in the list itself)
    leaves the daily total and the trailing average unchanged. *)
Theorem uncounted_chains_are_ignored `{Runtime value}
    (data : DefiLlamaApiResponse) (date : Date) (endDateStr : string) :
  Node.getTvlOnDate (only_counted node_counts data) date =
  Node.getTvlOnDate data date
  /\ Venezuela.getTvlOnDate (only_counted venezuela_counts data) date =
     Venezuela.getTvlOnDate data date
  /\ Node.calculateTrailingAverageTvl (only_counted node_counts data)
       endDateStr =
     Node.calculateTrailingAverageTvl data endDateStr
  /\ Venezuela.calculateTrailingAverageTvl
       (only_counted venezuela_counts data) endDateStr =
     Venezuela.calculateTrailingAverageTvl data endDateStr.
Proof.
  split; [now rewrite !node_getTvlOnDate_sum, contributions_only_counted|].
  split;
    [now rewrite !venezuela_getTvlOnDate_sum, contributions_only_counted|].
  split.
  - apply node_average_ext. intros d _. apply contributions_only_counted.
  - apply venezuela_average_ext. intros d _.
    apply contributions_only_counted.
Qed.

Lemma chain_contribution_venezuela_node (data : DefiLlamaApiResponse) t chain :
  chain_contribution venezuela_counts data t chain =
  List.filter (fun c => venezuela_counts (fst c))
              (chain_contribution node_counts data t chain).
Proof.
  unfold chain_contribution.
  destruct (venezuela_counts chain) eqn:Ev.
  - rewrite (venezuela_counts_node_counts chain Ev).
    destruct (day_entry data t chain); [|reflexivity].
    cbn [List.filter fst]. now rewrite Ev.
  - destruct (node_counts chain); [|reflexivity].
    destruct (day_entry data t chain); [|reflexivity].
    cbn [List.filter fst]. now rewrite Ev.
Qed.

(** X3.  The Venezuela revision counts a part of what
    [src/node/index.ts] counts: on every response and date, its
    contributions are those contributions of [src/node/index.ts] whose
    chain key is itself in the Superchain list, in the same order; keys
    that are only counted through their first segment are the whole
    difference. *)
Theorem venezuela_counts_part_of_node (data : DefiLlamaApiResponse)
    (date : Date) :
  contributions venezuela_counts data date =
  List.filter (fun c => venezuela_counts (fst c))
              (contributions node_counts data date)
  /\ incl (contributions venezuela_counts data date)
          (contributions node_counts data date)
  /\ (Venezuela.getTvlOnDate data date <> None ->
      contributions node_counts data date <> []).
Proof.
  assert (Hfilter :
            contributions venezuela_counts data date =
            List.filter (fun c => venezuela_counts (fst c))
                        (contributions node_counts data date)).
  { unfold contributions.
    induction (keys (chainTvls data)) as [|chain chains IH]; [reflexivity|].
    cbn [flat_map]. rewrite List.filter_app, <- IH.
    now rewrite chain_contribution_venezuela_node. }
  split; [exact Hfilter|]. split.
  - intros c Hc. rewrite Hfilter in Hc.
    apply List.filter_In in Hc. exact (proj1 Hc).
  - rewrite venezuela_getTvlOnDate_sum, Hfilter.
    destruct (contributions node_counts data date); [|discriminate].
    intros Hne. now contradiction Hne.
Qed.

End Irrelevant.

(** ** Data points outside the window, and their order *)

Section Points.
Import Js Defs Samples Variations.

Lemma find_filter {A : Type} (p q : A -> bool) (l : list A) :
  (forall x, p x = true -> q x = true) ->
  find p (List.filter q l) = find p l.
Proof.
  intros Hpq. induction l as [|x l IH]; [reflexivity|].
  cbn [List.filter find]. destruct (q x) eqn:Eq.
  - cbn [find]. now rewrite IH.
  - destruct (p x) eqn:Ep; [|exact IH].
    rewrite (Hpq x Ep) in Eq. discriminate Eq.
Qed.

Lemma get_map {V W : Type} (g : V -> W) (o : object V) k :
  get (List.map (fun kv => (fst kv, g (snd kv))) o) k =
  match get o k with Some v => Some (g v) | None => None end.
Proof.
  induction o as [|[k' v] o IH]; [reflexivity|].
  cbn [List.map get fst snd]. now destruct (String.eqb k' k).
Qed.

Lemma keys_map {V W : Type} (g : V -> W) (o : object V) :
  keys (List.map (fun kv => (fst kv, g (snd kv))) o) = keys o.
Proof.
  unfold keys. rewrite map_map. apply map_ext. now intros [k v].
Qed.

Lemma contributions_at_timestamps counts (data : DefiLlamaApiResponse)
    timestamps date :
  In (getTime date / 1000)%float timestamps ->
  contributions counts (at_timestamps timestamps data) date =
  contributions counts data date.
Proof.
  intros Hin. unfold contributions, at_timestamps. cbn [chainTvls].
  rewrite (keys_map
             (fun e =>
                {| tvl :=
                     List.filter
                       (fun d =>
                          existsb (fun t => (Defs.date d =? t)%float)
                                  timestamps)
                       (tvl e) |})).
  apply flat_map_ext_in. intros chain _.
  unfold chain_contribution, day_entry. cbn [chainTvls].
  destruct (counts chain); [|reflexivity].
  rewrite (get_map
             (fun e =>
                {| tvl :=
                     List.filter
                       (fun d =>
                          existsb (fun t => (Defs.date d =? t)%float)
                                  timestamps)
                       (tvl e) |})).
  destruct (get (chainTvls data) chain) as [entry|]; [|reflexivity].
  cbn [tvl]. unfold Array_find. rewrite find_filter; [reflexivity|].
  intros d Hd. apply existsb_exists. eauto.
Qed.

(** X4.  Only the data points at the seven timestamps of the window
    matter: dropping every other data point from every [tvl] array leaves
    the trailing average of both scripts unchanged, and the daily total
    of a date only needs the points at that date's timestamp. *)
Theorem points_outside_window_are_ignored `{Runtime value}
    (data : DefiLlamaApiResponse) (date : Date) (endDateStr : string) :
  let window := window_timestamps endDateStr in
  Node.getTvlOnDate (at_timestamps [(getTime date / 1000)%float] data) date =
  Node.getTvlOnDate data date
  /\ Venezuela.getTvlOnDate
       (at_timestamps [(getTime date / 1000)%float] data) date =
     Venezuela.getTvlOnDate data date
  /\ Node.calculateTrailingAverageTvl (at_timestamps window data) endDateStr =
     Node.calculateTrailingAverageTvl data endDateStr
  /\ Venezuela.calculateTrailingAverageTvl (at_timestamps window data)
       endDateStr =
     Venezuela.calculateTrailingAverageTvl data endDateStr.
Proof.
  intros window.
  assert (Hwindow : forall d, In d (window_dates endDateStr) ->
            In (getTime d / 1000)%float window).
  { intros d Hd. unfold window, window_timestamps.
    apply in_map_iff. now exists d. }
  split.
  { rewrite !node_getTvlOnDate_sum.
    rewrite contributions_at_timestamps; [reflexivity|now left]. }
  split.
  { rewrite !venezuela_getTvlOnDate_sum.
    rewrite contributions_at_timestamps; [reflexivity|now left]. }
  split.
  - apply node_average_ext. intros d Hd.
    apply contributions_at_timestamps. exact (Hwindow d Hd).
  - apply venezuela_average_ext. intros d Hd.
    apply contributions_at_timestamps. exact (Hwindow d Hd).
Qed.

Lemma find_unique_Permutation {A : Type} (p : A -> bool) (l l' : list A) :
  Permutation l l' ->
  (forall x y, In x l -> In y l -> p x = true -> p y = true -> x = y) ->
  find p l = find p l'.
Proof.
  intros Hperm Hunique.
  destruct (find p l) as [x|] eqn:E; destruct (find p l') as [y|] eqn:E'.
  - apply find_some in E as [Hx Hpx]. apply find_some in E' as [Hy Hpy].
    f_equal. apply Hunique; try assumption.
    apply (Permutation_in _ (Permutation_sym Hperm) Hy).
  - apply find_some in E as [Hx Hpx].
    pose proof (find_none _ _ E' x (Permutation_in _ Hperm Hx)) as Hnone.
    rewrite Hpx in Hnone. discriminate Hnone.
  - apply find_some in E' as [Hy Hpy].
    pose proof (find_none _ _ E y
                  (Permutation_in _ (Permutation_sym Hperm) Hy)) as Hnone.
    rewrite Hpy in Hnone. discriminate Hnone.
  - reflexivity.
Qed.

Lemma reordered_keys (data data' : DefiLlamaApiResponse) :
  reordered data data' -> keys (chainTvls data) = keys (chainTvls data').
Proof.
  unfold reordered, keys. intros Hre.
  induction Hre as [|kv kv' o o' [Hk _] _ IH]; [reflexivity|].
  cbn [List.map]. now rewrite Hk, IH.
Qed.

Lemma reordered_day_entry (data data' : DefiLlamaApiResponse) t chain :
  reordered data data' -> one_point_at t data ->
  day_entry data t chain = day_entry data' t chain.
Proof.
  unfold reordered, one_point_at, day_entry. intros Hre.
  induction Hre as [|[k e] [k' e'] o o' [Hk Hperm] _ IH]; intros Hone.
  - reflexivity.
  - cbn [fst snd] in Hk, Hperm. subst k'. cbn [get].
    destruct (String.eqb k chain).
    + unfold Array_find. apply find_unique_Permutation; [exact Hperm|].
      intros x y Hx Hy. apply (Hone k e); [now left|exact Hx|exact Hy].
    + apply IH. intros c en x y Hin. apply (Hone c en). now right.
Qed.

(** X5.  The order of the data points inside a [tvl] array does not
    matter as long as no array holds two different points at the target
    timestamp: for two responses with the same chain keys whose arrays
    are permutations of each other, both scripts return the same daily
    total. *)
Theorem order_of_points_is_irrelevant (data data' : DefiLlamaApiResponse)
    (date : Date) :
  reordered data data' ->
  one_point_at (getTime date / 1000)%float data ->
  Node.getTvlOnDate data date = Node.getTvlOnDate data' date
  /\ Venezuela.getTvlOnDate data date = Venezuela.getTvlOnDate data' date.
Proof.
  intros Hre Hone.
  assert (Hsame : forall counts,
            contributions counts data date = contributions counts data' date).
  { intros counts. unfold contributions.
    rewrite <- (reordered_keys data data' Hre).
    apply flat_map_ext_in. intros chain _. unfold chain_contribution.
    now rewrite (reordered_day_entry data data' _ chain Hre Hone). }
  split.
  - now rewrite !node_getTvlOnDate_sum, Hsame.
  - now rewrite !venezuela_getTvlOnDate_sum, Hsame.
Qed.

(** The theorem on a chain with two data points, listed in either
    order. *)
Lemma order_of_points_is_irrelevant_witness :
  Node.getTvlOnDate Examples.two_days Examples.end_date =
  Node.getTvlOnDate two_days_reversed Examples.end_date.
Proof.
  refine (proj1 (order_of_points_is_irrelevant Examples.two_days
                   two_days_reversed Examples.end_date _ _)).
  - repeat constructor.
  - intros chain entry x y Hin.
    destruct Hin as [Heq|[]]. injection Heq as <- <-.
    intros [<-|[<-|[]]] [<-|[<-|[]]] Hx Hy;
      first [reflexivity | vm_compute in Hx; discriminate Hx
            | vm_compute in Hy; discriminate Hy].
Defined.

End Points.

(** ** The daily total and the mean in the Venezuela revision *)

Section VenezuelaMean.
Import Js Defs Samples Variations.

Lemma flat_map_map_in {A B C : Type} (f : B -> list C) (g : A -> B)
    (l : list A) :
  flat_map f (List.map g l) = flat_map (fun x => f (g x)) l.
Proof.
  induction l as [|x l IH]; [reflexivity|].
  cbn [List.map flat_map]. now rewrite IH.
Qed.

Lemma days_with_data_retained `{Runtime value} data endDateStr :
  days_with_data data endDateStr = retained data endDateStr.
Proof.
  rewrite retained_flat_map. unfold days_with_data, window_dates.
  now rewrite flat_map_map_in.
Qed.

(** X6.  The Venezuela revision averages over the days that have data:
    with [vs] the daily totals of the days of the window on which
    [getTvlOnDate] is not [null] (at most seven), it returns the sum of
    [vs] divided by the number of these days, and [0] when there is no
    such day. *)
Theorem venezuela_average_is_mean_of_days_with_data
    `{Runtime value} (data : DefiLlamaApiResponse)
    (endDateStr : string) :
  let vs := days_with_data data endDateStr in
  (length vs <= 7)%nat
  /\ Venezuela.calculateTrailingAverageTvl data endDateStr =
     match vs with
     | [] => 0%float
     | _ => (sum vs / of_Z (Z.of_nat (length vs)))%float
     end.
Proof.
  cbv zeta. rewrite days_with_data_retained. split.
  - apply retained_length.
  - rewrite venezuela_average. now destruct (retained data endDateStr).
Qed.

Lemma contributions_nil counts (data : DefiLlamaApiResponse) date :
  contributions counts data date = [] <->
  (forall chain, In chain (keys (chainTvls data)) -> counts chain = true ->
     day_entry data (getTime date / 1000)%float chain = None).
Proof.
  unfold contributions.
  induction (keys (chainTvls data)) as [|chain chains IH].
  - split; [intros _ c []|reflexivity].
  - cbn [flat_map]. split.
    + intros Hnil. apply app_eq_nil in Hnil as [Hchain Hrest].
      intros c [<-|Hin] Hc.
      * unfold chain_contribution in Hchain. rewrite Hc in Hchain.
        now destruct (day_entry data _ chain).
      * now apply IH.
    + intros Hnone.
      assert (Hrest : flat_map
                (chain_contribution counts data (getTime date / 1000)%float)
                chains = [])
        by (apply IH; intros c Hin; apply Hnone; now right).
      rewrite Hrest, app_nil_r. unfold chain_contribution.
      destruct (counts chain) eqn:Hc; [|reflexivity].
      now rewrite (Hnone chain (or_introl eq_refl) Hc).
Qed.

(** X7.  In the Venezuela revision [getTvlOnDate] returns [null] exactly
    when no counted chain of the response has a data point at the target
    timestamp; a day whose counted values sum to zero is a number, not
    [null]. *)
Theorem venezuela_daily_total_null_iff_no_point (data : DefiLlamaApiResponse)
    (date : Date) :
  (Venezuela.getTvlOnDate data date = None <->
   forall chain, In chain (keys (chainTvls data)) ->
     has MAJOR_SUPERCHAIN_L2S chain = true ->
     day_entry data (getTime date / 1000)%float chain = None)
  /\ (forall dayTvl,
        Venezuela.getTvlOnDate data date = Some dayTvl ->
        contributions venezuela_counts data date <> []
        /\ dayTvl =
           sum (List.map snd (contributions venezuela_counts data date))).
Proof.
  split.
  - rewrite <- (contributions_nil venezuela_counts data date).
    rewrite venezuela_getTvlOnDate_sum.
    destruct (contributions venezuela_counts data date);
      split; intros Heq; try reflexivity; discriminate Heq.
  - intros dayTvl. rewrite venezuela_getTvlOnDate_sum.
    destruct (contributions venezuela_counts data date) as [|c cs];
      [discriminate|].
    intros [= <-]. split; [discriminate|reflexivity].
Qed.

(** X8.  Where the two scripts count the same chain keys of a response,
    the daily total of [src/node/index.ts] is the daily total of the
    Venezuela revision, with [0] in place of [null]. *)
Theorem node_daily_total_is_venezuela_or_zero (data : DefiLlamaApiResponse)
    (date : Date) :
  (forall chain, In chain (keys (chainTvls data)) ->
     node_counts chain = venezuela_counts chain) ->
  Node.getTvlOnDate data date =
  match Venezuela.getTvlOnDate data date with
  | Some dayTvl => dayTvl
  | None => 0%float
  end.
Proof.
  intros Hsame.
  rewrite node_getTvlOnDate_sum, venezuela_getTvlOnDate_sum.
  rewrite (contributions_same_counts data date Hsame).
  now destruct (contributions venezuela_counts data date).
Qed.

(** The theorem on a week of one counted chain, at its last day and at
    a day without data. *)
Lemma node_daily_total_is_venezuela_or_zero_witness :
  Node.getTvlOnDate Examples.whole_week Examples.end_date = 49%float
  /\ Node.getTvlOnDate Examples.whole_week (Some 0%Z) = 0%float.
Proof.
  assert (Hsame : forall chain,
            In chain (keys (chainTvls Examples.whole_week)) ->
            node_counts chain = venezuela_counts chain).
  { intros chain Hin. vm_compute in Hin.
    repeat (destruct Hin as [<-|Hin]; [vm_compute; reflexivity|]).
    destruct Hin. }
  split.
  - rewrite (node_daily_total_is_venezuela_or_zero Examples.whole_week
               Examples.end_date Hsame).
    vm_compute. reflexivity.
  - rewrite (node_daily_total_is_venezuela_or_zero Examples.whole_week
               (Some 0%Z) Hsame).
    vm_compute. reflexivity.
Defined.

End VenezuelaMean.

(** ** What [main] stores *)

Section MainEntries.
Import Js Defs Samples.

Lemma fetch_throws_iff `{Runtime value} slug message :
  fetchProtocolData slug = Throw message <->
  http_get ("https://api.llama.fi/protocol/" ++ slug) = Throw message
  \/ exists response,
       http_get ("https://api.llama.fi/protocol/" ++ slug) = Normal response
       /\ ((ok response = false
            /\ message = "Failed to fetch data for " ++ slug ++ ": "
                         ++ statusText response)
           \/ (ok response = true /\ json response = Throw message)).
Proof.
  unfold fetchProtocolData.
  destruct (http_get _) as [response|error].
  - destruct (ok response) eqn:Hok; cbn [negb]; split.
    + intros Hjson. right. exists response. split; [reflexivity|].
      right. now split.
    + intros [Habs|(r & [= <-] & [[Habs _]|[_ Hjson]])];
        [discriminate Habs|congruence|exact Hjson].
    + intros [= <-]. right. exists response. split; [reflexivity|].
      left. now split.
    + intros [Habs|(r & [= <-] & [[_ ->]|[Habs _]])];
        [discriminate Habs|reflexivity|congruence].
  - split.
    + intros [= ->]. now left.
    + intros [[= ->]|(r & Habs & _)]; [reflexivity|discriminate Habs].
Qed.

(** X9.  [fetchProtocolData] throws exactly when the request fails, when
    the response is not [ok] (the body is then never read), or when
    reading the body fails.  For a project of a well-formed [PROJECTS]
    object the entry that [main] stores under its slug is the string
    "Error processing project" exactly when the [try] block throws:
    when fetching throws, or when one of the two trailing averages
    throws on the fetched body.  On a body of the declared shape the
    averages do not throw and the entry is computed from them; on a body
    that is [null], or whose first counted chain has no [tvl] array, they
    throw and the entry is the error string. *)
Theorem error_entry_iff_try_block_throws `{Engine} `{Runtime value}
    (projects : object string) (name slug : string)
    (results : gmap string Node.result)
    (state : gmap string Venezuela.result * list Venezuela.csv_row) :
  well_formed projects ->
  In (name, slug) projects ->
  let url := "https://api.llama.fi/protocol/" ++ slug in
  let fetch_throws := exists message, fetchProtocolData slug = Throw message in
  let node_entry := Node.main_loop projects results !! slug in
  let venezuela_entry := fst (Venezuela.main_loop projects state) !! slug in
  (fetch_throws <->
   (exists message, http_get url = Throw message)
   \/ exists response,
        http_get url = Normal response
        /\ (ok response = false
            \/ exists message, json response = Throw message))
  /\ (node_entry = Some (Node.Message "Error processing project") <->
      exists message, Node.attempt slug = Throw message)
  /\ (venezuela_entry = Some (Venezuela.Message "Error processing project")
      <-> exists message, Venezuela.attempt slug = Throw message)
  /\ (fetch_throws ->
      (exists message, Node.attempt slug = Throw message)
      /\ exists message, Venezuela.attempt slug = Throw message)
  /\ (forall protocolData,
        fetchProtocolData slug = Normal protocolData ->
        ((exists message, Node.attempt slug = Throw message) <->
         (exists message,
            Node.Unchecked.calculateTrailingAverageTvl protocolData
              METRIC_END_DATE = Throw message)
         \/ exists message,
              Node.Unchecked.calculateTrailingAverageTvl protocolData
                METRIC_START_DATE = Throw message)
        /\ ((exists message, Venezuela.attempt slug = Throw message) <->
            (exists message,
               Venezuela.Unchecked.calculateTrailingAverageTvl protocolData
                 METRIC_END_DATE = Throw message)
            \/ exists message,
                 Venezuela.Unchecked.calculateTrailingAverageTvl protocolData
                   METRIC_START_DATE = Throw message))
  /\ (forall protocolData data,
        fetchProtocolData slug = Normal protocolData ->
        decode protocolData = Some data ->
        node_entry =
          Some (Node.Difference
                  (Node.calculateTrailingAverageTvl data METRIC_END_DATE
                   - Node.calculateTrailingAverageTvl data METRIC_START_DATE)
                  %float)
        /\ venezuela_entry =
             let t_end :=
               Venezuela.calculateTrailingAverageTvl data METRIC_END_DATE in
             let t_start :=
               Venezuela.calculateTrailingAverageTvl data METRIC_START_DATE in
             Some (Venezuela.Summary
                     {| Venezuela.start := t_start;
                        Venezuela.end_ := t_end;
                        Venezuela.difference := (t_end - t_start)%float |}))
  /\ (forall protocolData,
        fetchProtocolData slug = Normal protocolData ->
        (Variations.lacks_tvl_array node_counts protocolData = true ->
         node_entry = Some (Node.Message "Error processing project"))
        /\ (Variations.lacks_tvl_array venezuela_counts protocolData = true ->
            venezuela_entry =
              Some (Venezuela.Message "Error processing project"))).
Proof.
  intros Hwf Hin url fetch_throws node_entry venezuela_entry.
  assert (Hslug : In slug (List.map snd projects))
    by (apply in_map_iff; now exists (name, slug)).
  assert (Hnode : node_entry = Some (Node.process slug)).
  { subst node_entry. rewrite node_main_loop_lookup by assumption.
    now destruct (in_dec string_dec slug (List.map snd projects)). }
  assert (Hvenezuela :
            venezuela_entry = Some (fst (Venezuela.process "" slug))).
  { subst venezuela_entry. destruct state as [results' rows].
    rewrite venezuela_main_loop_entries by assumption. cbn [fst].
    rewrite insert_all_lookup.
    now destruct (in_dec string_dec slug (List.map snd projects)). }
  clearbody node_entry venezuela_entry. subst node_entry venezuela_entry.
  split; [|split; [|split; [|split; [|split; [|split]]]]].
  - subst fetch_throws url. split.
    + intros [message Hthrow]. apply fetch_throws_iff in Hthrow.
      destruct Hthrow as [Hget|(response & Hget & [[Hok _]|[_ Hjson]])];
        [left; eauto|right; eauto|right; eauto].
    + intros [[message Hget]|(response & Hget & [Hok|[message Hjson]])].
      * exists message. apply fetch_throws_iff. now left.
      * eexists. apply fetch_throws_iff. right. exists response.
        split; [exact Hget|]. left. split; [exact Hok|reflexivity].
      * destruct (ok response) eqn:Hok.
        -- exists message. apply fetch_throws_iff. right. exists response.
           split; [exact Hget|]. right. now split.
        -- eexists. apply fetch_throws_iff. right. exists response.
           split; [exact Hget|]. left. split; [exact Hok|reflexivity].
  - unfold Node.process.
    destruct (Node.attempt slug) as [difference|message]; split.
    + intros Heq. discriminate Heq.
    + intros [message Heq]. discriminate Heq.
    + intros _. now exists message.
    + reflexivity.
  - unfold Venezuela.process.
    destruct (Venezuela.attempt slug) as [summary|message]; split.
    + intros Heq. discriminate Heq.
    + intros [message Heq]. discriminate Heq.
    + intros _. now exists message.
    + reflexivity.
  - intros [message Hthrow]. split; exists message.
    + apply node_attempt_throws_iff. now left.
    + apply venezuela_attempt_throws_iff. now left.
  - intros protocolData Hfetch. split; split.
    + intros [message Hthrow]. apply node_attempt_throws_iff in Hthrow.
      destruct Hthrow as [Habs|(body & Hbody & [Hend|[_ Hstart]])].
      * rewrite Hfetch in Habs. discriminate Habs.
      * rewrite Hfetch in Hbody. injection Hbody as <-. left. eauto.
      * rewrite Hfetch in Hbody. injection Hbody as <-. right. eauto.
    + intros Hthrow.
      destruct (Node.Unchecked.calculateTrailingAverageTvl protocolData
                  METRIC_END_DATE) as [t_end|error] eqn:Eend.
      * destruct Hthrow as [[message Habs]|[message Hstart]];
          [discriminate Habs|].
        exists message. apply node_attempt_throws_iff. right.
        exists protocolData. split; [exact Hfetch|]. right.
        split; [now exists t_end|exact Hstart].
      * exists error. apply node_attempt_throws_iff. right.
        exists protocolData. split; [exact Hfetch|]. now left.
    + intros [message Hthrow]. apply venezuela_attempt_throws_iff in Hthrow.
      destruct Hthrow as [Habs|(body & Hbody & [Hend|[_ Hstart]])].
      * rewrite Hfetch in Habs. discriminate Habs.
      * rewrite Hfetch in Hbody. injection Hbody as <-. left. eauto.
      * rewrite Hfetch in Hbody. injection Hbody as <-. right. eauto.
    + intros Hthrow.
      destruct (Venezuela.Unchecked.calculateTrailingAverageTvl protocolData
                  METRIC_END_DATE) as [t_end|error] eqn:Eend.
      * destruct Hthrow as [[message Habs]|[message Hstart]];
          [discriminate Habs|].
        exists message. apply venezuela_attempt_throws_iff. right.
        exists protocolData. split; [exact Hfetch|]. right.
        split; [now exists t_end|exact Hstart].
      * exists error. apply venezuela_attempt_throws_iff. right.
        exists protocolData. split; [exact Hfetch|]. now left.
  - intros protocolData data Hfetch Hdecode. split.
    + unfold Node.process, Node.attempt. rewrite Hfetch. cbn [bind].
      rewrite !(node_unchecked_average protocolData data _ Hdecode).
      reflexivity.
    + unfold Venezuela.process, Venezuela.attempt. rewrite Hfetch.
      cbn [bind].
      rewrite !(venezuela_unchecked_average protocolData data _ Hdecode).
      reflexivity.
  - intros protocolData Hfetch. split; intros Hbody.
    + unfold Node.process, Node.attempt. rewrite Hfetch. cbn [bind].
      now rewrite node_average_throws.
    + unfold Venezuela.process, Venezuela.attempt. rewrite Hfetch.
      cbn [bind]. now rewrite venezuela_average_throws.
Qed.

(** The theorem on three projects: one whose request fails, one that is
    served a body of the declared shape, and one that is served
    [{"chainTvls":{"Base":{}}}]. *)
Lemma error_entry_iff_try_block_throws_witness :
  @Node.main_loop Host.engine Examples.failing_host Examples.three_projects ∅
    !! "superform" = Some (Node.Message "Error processing project")
  /\ @Node.main_loop Host.engine Examples.failing_host
       Examples.three_projects ∅
       !! "avantis" = Some (Node.Difference 300%float)
  /\ @Node.main_loop Host.engine Examples.misshapen_host
       Examples.three_projects ∅
       !! "superform" = Some (Node.Message "Error processing project").
Proof.
  assert (Hwf : well_formed Examples.three_projects).
  { unfold well_formed. cbn. repeat constructor; cbn; intuition congruence. }
  split; [|split].
  - apply (@error_entry_iff_try_block_throws Host.engine
             Examples.failing_host
             Examples.three_projects "SuperForm" "superform" ∅ (∅, []) Hwf).
    + right. now left.
    + exists "request failed". vm_compute. reflexivity.
  - destruct (@error_entry_iff_try_block_throws Host.engine
                Examples.failing_host
                Examples.three_projects "Avantis" "avantis" ∅ (∅, []) Hwf)
      as (_ & _ & _ & _ & _ & Hok & _).
    + right. right. now left.
    + destruct (Hok (to_json Examples.two_days) Examples.two_days)
        as [-> _]; [vm_compute; reflexivity|apply decode_to_json|].
      vm_compute. reflexivity.
  - destruct (@error_entry_iff_try_block_throws Host.engine
                Examples.misshapen_host
                Examples.three_projects "SuperForm" "superform" ∅ (∅, []) Hwf)
      as (_ & _ & _ & _ & _ & _ & Hbad).
    + right. now left.
    + apply (Hbad Examples.no_tvl_array); vm_compute; reflexivity.
Defined.

End MainEntries.

(** ** The CSV lines and the stored entries *)

Section CsvLines.
Import Js Defs Samples.

Lemma insert_all_dom {R : Type} (f : string -> R) (slugs : list string)
    (results : gmap string R) :
  dom (fold_left (fun results s => <[s := f s]> results) slugs results) =
  dom results ∪ list_to_set slugs.
Proof.
  revert results. induction slugs as [|s slugs IH]; intros results.
  - cbn [fold_left]. rewrite list_to_set_nil.
    symmetry. apply (right_id_L ∅ (∪)).
  - cbn [fold_left]. rewrite IH, dom_insert_L, list_to_set_cons.
    rewrite (comm_L (∪) {[s]} (dom results)). symmetry.
    apply (assoc_L (∪)).
Qed.

Lemma distinct_NoDup (l : list string) :
  Variations.distinct l = true -> List.NoDup l.
Proof.
  induction l as [|x l IH]; cbn [Variations.distinct]; [constructor|].
  intros Hd. apply andb_prop in Hd as [Hx Hl].
  constructor; [|now apply IH].
  intros Hin. apply negb_true_iff in Hx.
  assert (Hex : existsb (String.eqb x) l = true)
    by (apply existsb_exists; exists x; split;
        [exact Hin|apply String.eqb_refl]).
  rewrite Hex in Hx. discriminate Hx.
Qed.

(** X10.  The Venezuela revision keeps the CSV lines and the stored
    entries in step.  For a well-formed object of projects, [main] appends
    exactly one line per project, in the order of the projects, after the
    lines it started with; the line of a project is the error line with
    its name exactly when the entry under its slug is the error string,
    and otherwise carries [Math.round] of the three numbers of that entry,
    whose [difference] is [end - start]. *)
Theorem csv_lines_match_entries `{Engine} `{Runtime value}
    (projects : object string) (results : gmap string Venezuela.result)
    (rows : list Venezuela.csv_row) (i : nat) (name slug : string) :
  well_formed projects ->
  nth_error projects i = Some (name, slug) ->
  let final := Venezuela.main_loop projects (results, rows) in
  length (snd final) = (length rows + length projects)%nat
  /\ firstn (length rows) (snd final) = rows
  /\ exists entry row,
       fst final !! slug = Some entry
       /\ nth_error (snd final) (length rows + i) = Some row
       /\ match entry with
          | Venezuela.Summary s =>
              row = Venezuela.Row name (Math_round (Venezuela.start s))
                      (Math_round (Venezuela.end_ s))
                      (Math_round (Venezuela.difference s))
              /\ Venezuela.difference s =
                 (Venezuela.end_ s - Venezuela.start s)%float
          | Venezuela.Message text =>
              row = Venezuela.ErrorRow name
              /\ text = "Error processing project"
          end.
Proof.
  intros Hwf Hnth final. subst final.
  rewrite venezuela_main_loop_entries by assumption. cbn [fst snd].
  split; [now rewrite length_app, length_map|].
  split; [now rewrite firstn_app, Nat.sub_diag, firstn_all, app_nil_r|].
  exists (fst (Venezuela.process name slug)),
         (snd (Venezuela.process name slug)).
  split; [|split].
  - rewrite insert_all_lookup.
    destruct (in_dec string_dec slug (List.map snd projects)) as [_|Hnin].
    + unfold Venezuela.process.
      now destruct (Venezuela.attempt slug).
    + exfalso. apply Hnin. apply in_map_iff. exists (name, slug).
      split; [reflexivity|]. eapply nth_error_In, Hnth.
  - rewrite nth_error_app2 by lia.
    replace (length rows + i - length rows)%nat with i by lia.
    rewrite nth_error_map, Hnth. reflexivity.
  - unfold Venezuela.process.
    destruct (Venezuela.attempt slug) as [summary|message] eqn:Hattempt;
      cbn [fst snd]; [|now split].
    split; [reflexivity|].
    unfold Venezuela.attempt in Hattempt.
    destruct (fetchProtocolData slug) as [protocolData|error];
      [|discriminate Hattempt].
    cbn [bind] in Hattempt.
    destruct (Venezuela.Unchecked.calculateTrailingAverageTvl protocolData
                METRIC_END_DATE) as [t_end|error];
      [|discriminate Hattempt].
    cbn [bind] in Hattempt.
    destruct (Venezuela.Unchecked.calculateTrailingAverageTvl protocolData
                METRIC_START_DATE) as [t_start|error];
      [|discriminate Hattempt].
    cbn [bind] in Hattempt. now injection Hattempt as <-.
Qed.

(** The theorem on the second of three projects, whose payload the host
    does not serve. *)
Lemma csv_lines_match_entries_witness :
  let final :=
    @Venezuela.main_loop Host.engine Examples.failing_host
      Examples.three_projects
      (∅, [Venezuela.Header "Protocol,Start Value,End Value,Difference"]) in
  length (snd final) = 4%nat
  /\ nth_error (snd final) 2 = Some (Venezuela.ErrorRow "SuperForm").
Proof.
  destruct (@csv_lines_match_entries Host.engine Examples.failing_host
              Examples.three_projects ∅
              [Venezuela.Header "Protocol,Start Value,End Value,Difference"]
              1 "SuperForm" "superform")
    as (Hlength & _ & entry & row & Hentry & Hrow & Hmatch).
  - unfold well_formed. cbn. repeat constructor; cbn; intuition congruence.
  - reflexivity.
  - cbv zeta. split; [exact Hlength|].
    vm_compute. reflexivity.
Defined.

(** X11.  [main] stores one entry per project and nothing else, whatever
    the host answers: for a well-formed object of projects the keys of the
    final [results] are the keys it started with and the slugs of the
    projects; with the scripts' own [PROJECTS], whose slugs are pairwise
    distinct, these are 21 entries in [src/node/index.ts], and 23 entries
    and 24 CSV lines in the Venezuela revision. *)
Theorem main_stores_one_entry_per_project `{Engine} `{Runtime value}
    (projects : object string) (results : gmap string Node.result)
    (results' : gmap string Venezuela.result)
    (rows : list Venezuela.csv_row) :
  well_formed projects ->
  dom (Node.main_loop projects results) =
    dom results ∪ list_to_set (List.map snd projects)
  /\ dom (fst (Venezuela.main_loop projects (results', rows))) =
       dom results' ∪ list_to_set (List.map snd projects)
  /\ size Node.main = 21%nat
  /\ size (fst Venezuela.main) = 23%nat
  /\ length (snd Venezuela.main) = 24%nat.
Proof.
  intros Hwf.
  assert (Hnode : well_formed Node.PROJECTS)
    by (apply distinct_NoDup; vm_compute; reflexivity).
  assert (Hvenezuela : well_formed Venezuela.PROJECTS)
    by (apply distinct_NoDup; vm_compute; reflexivity).
  split; [|split; [|split; [|split]]].
  - rewrite node_main_loop_entries by assumption. apply insert_all_dom.
  - rewrite venezuela_main_loop_entries by assumption. cbn [fst].
    apply insert_all_dom.
  - unfold Node.main. rewrite <- size_dom.
    rewrite node_main_loop_entries by exact Hnode.
    rewrite insert_all_dom, dom_empty_L, (left_id_L ∅ (∪)).
    rewrite size_list_to_set; [reflexivity|].
    apply NoDup_ListNoDup, distinct_NoDup. vm_compute. reflexivity.
  - unfold Venezuela.main. rewrite <- size_dom.
    rewrite venezuela_main_loop_entries by exact Hvenezuela. cbn [fst].
    rewrite insert_all_dom, dom_empty_L, (left_id_L ∅ (∪)).
    rewrite size_list_to_set; [reflexivity|].
    apply NoDup_ListNoDup, distinct_NoDup. vm_compute. reflexivity.
  - unfold Venezuela.main.
    rewrite venezuela_main_loop_entries by exact Hvenezuela. cbn [snd].
    now rewrite length_app, length_map.
Qed.

(** The theorem on three projects. *)
Lemma main_stores_one_entry_per_project_witness :
  dom (@Node.main_loop Host.engine Examples.failing_host
         Examples.three_projects ∅) =
  ({[ "rocket-pool" ]} ∪ ({[ "superform" ]} ∪ ({[ "avantis" ]} ∪ ∅))
   : gset string).
Proof.
  assert (Hwf : well_formed Examples.three_projects).
  { apply distinct_NoDup. vm_compute. reflexivity. }
  rewrite (proj1 (@main_stores_one_entry_per_project Host.engine
                    Examples.failing_host
                    Examples.three_projects ∅ ∅ [] Hwf)).
  cbn [Examples.three_projects List.map snd].
  rewrite dom_empty_L, (left_id_L ∅ (∪)). reflexivity.
Defined.

End CsvLines.

(** ** Exactness in the Venezuela revision *)

Section VenezuelaExactness.
Import Js Defs Samples Variations.

(** X12.  The Venezuela revision computes its mean in binary64 as well:
    when at least one day has data, every addition of the daily totals is
    exact and so is the division by their number, the returned number has
    the exact mean of these totals as its value. *)
Theorem venezuela_mean_exact_when_operations_are
    `{Runtime value} (data : DefiLlamaApiResponse)
    (endDateStr : string) :
  let vs := days_with_data data endDateStr in
  let count := Z.of_nat (length vs) in
  vs <> [] ->
  additions_exact 0%float vs = true ->
  division_exact (sum vs) (of_Z count) = true ->
  represents (Venezuela.calculateTrailingAverageTvl data endDateStr)
             (Qsum (List.map exact_or_0 vs) / inject_Z count)%Q.
Proof.
  cbv zeta. rewrite days_with_data_retained.
  apply venezuela_average_exact.
Qed.

(** The theorem on a week of whole dollars, whose mean is 28. *)
Lemma venezuela_mean_exact_when_operations_are_witness :
  represents
    (@Venezuela.calculateTrailingAverageTvl Examples.host Examples.whole_week
       "2025-06-12") 28%Q.
Proof.
  eapply represents_Qeq;
    [|apply (@venezuela_mean_exact_when_operations_are Examples.host
               Examples.whole_week "2025-06-12")].
  - vm_compute. reflexivity.
  - intros Hnil. vm_compute in Hnil. discriminate Hnil.
  - vm_compute. reflexivity.
  - vm_compute. reflexivity.
Defined.

End VenezuelaExactness.
